(** * Rollback generation endpoint: pkg/apps/apiserver/registry/rollback/rest.go

    A shallow embedding of [REST.Create] and of the values it manipulates,
    followed by the properties of the endpoint.

    - Go's [int64] is [Z] with the wrap-around of the subtraction written out.
    - Go's [map[string]string] is either [nil] or an allocated table; the
      table itself is a [gmap string string].
    - [(T, error)] results are sums; a run of [Create] is a pair of the
      collaborator calls it made, in order, and of the way it ended. *)

From Stdlib Require Import ZArith Lia.
From stdpp Require Import base option list strings gmap fin_maps pretty.

Local Open Scope Z_scope.

(** ** Machine integers *)

Definition int64_min : Z := - 2 ^ 63.
Definition int64_max : Z := 2 ^ 63 - 1.

Definition int64_range (z : Z) : Prop := int64_min ≤ z ≤ int64_max.

(** Two's complement reduction of a mathematical integer to [int64]. *)
Definition wrap64 (z : Z) : Z := (z + 2 ^ 63) `mod` 2 ^ 64 - 2 ^ 63.

(** ** Go maps from strings to strings *)

Inductive GoMap : Type :=
| nilMap
| mkMap (m : gmap string string).

(** What reading the map sees: a nil map reads as an empty one. *)
Definition entries (m : GoMap) : gmap string string :=
  match m with
  | nilMap => ∅
  | mkMap t => t
  end.

(** [m[key] = value]; assignment to an entry of a nil map panics ([None]). *)
Definition assign (m : GoMap) (key value : string) : option GoMap :=
  match m with
  | nilMap => None
  | mkMap t => Some (mkMap (<[key := value]> t))
  end.

(** [for key, value := range src { dst[key] = value }], the entries of [src]
    being visited in the order of the list [order]. *)
Definition assignAll (order : list (string * string)) (dst : GoMap) : option GoMap :=
  foldl (λ acc kv, d ← acc; assign d kv.1 kv.2) (Some dst) order.

(** ** Errors *)

(** field.Error, as built by [field.Invalid(path, value, detail)]. *)
Inductive ErrorType : Type :=
| ErrorTypeInvalid
| ErrorTypeRequired
| ErrorTypeNotFound.

Record FieldError : Type := {
  Type_ : ErrorType;
  Field : string;
  BadValue : string;
  Detail : string
}.

Definition field_Invalid (path value detail : string) : FieldError :=
  {| Type_ := ErrorTypeInvalid; Field := path; BadValue := value; Detail := detail |}.

(** schema.GroupKind values, all obtained through [apps.Kind]. *)
Inductive GroupKind : Type :=
| apps_Kind (kind : string).

(** The [error] values that flow through the endpoint: the three apierrors
    constructors it calls, the not-found status a store answers with, and
    any other error, known by its text. *)
Inductive error : Type :=
| NewBadRequest (reason : string)
| NewInvalid (qualifiedKind : GroupKind) (name : string) (errs : list FieldError)
| NewInternalError (err : error)
| NewNotFound (qualifiedResource name : string)
| errorString (text : string).

(** metav1.StatusReason, the kind of failure a caller sees. *)
Inductive StatusReason : Type :=
| StatusReasonUnknown
| StatusReasonBadRequest
| StatusReasonInvalid
| StatusReasonNotFound
| StatusReasonInternalError.

(** apierrors.ReasonForError: each constructor stamps its own reason. *)
Definition ReasonForError (err : error) : StatusReason :=
  match err with
  | NewBadRequest _ => StatusReasonBadRequest
  | NewInvalid _ _ _ => StatusReasonInvalid
  | NewInternalError _ => StatusReasonInternalError
  | NewNotFound _ _ => StatusReasonNotFound
  | errorString _ => StatusReasonUnknown
  end.

(** The field errors carried by an invalid status (its causes). *)
Definition causes (err : error) : list FieldError :=
  match err with
  | NewInvalid _ _ errs => errs
  | _ => []
  end.

(** ** Runs of the endpoint *)

(** Calls to the collaborators, as they are made. *)
Inductive Call : Type :=
| CallValidateDeploymentConfigRollback (name : string)
| CallCreateValidation
| CallGetDeploymentConfig (namespace name : string)
| CallGetReplicationController (namespace name : string).

Inductive outcome (A : Type) : Type :=
| Returns (a : A)
| Fails (err : error)
| Panics.

Arguments Returns {A} a.
Arguments Fails {A} err.
Arguments Panics {A}.

Definition run (A : Type) : Type := (list Call * outcome A)%type.

Definition unit_run {A} (a : A) : run A := ([], Returns a).

Definition bind_run {A B} (m : run A) (k : A → run B) : run B :=
  match m with
  | (t, Returns a) => let r := k a in (t ++ r.1, r.2)
  | (t, Fails err) => (t, Fails err)
  | (t, Panics) => (t, Panics)
  end.

(** [return nil, err] *)
Definition failWith {A} (err : error) : run A := ([], Fails err).

(** A collaborator call whose answer is handed back as it is. *)
Definition perform {A} (c : Call) (answer : A) : run A := ([c], Returns answer).

(** [x, err := call; if err != nil { return nil, wrap(err) }] *)
Definition tryCall {A} (c : Call) (answer : A + error) (wrap : error → error) : run A :=
  match answer with
  | inl a => ([c], Returns a)
  | inr err => ([c], Fails (wrap err))
  end.

(** The same for a call that is not recorded (a pure library function). *)
Definition check {A} (answer : A + error) (wrap : error → error) : run A :=
  match answer with
  | inl a => ([], Returns a)
  | inr err => ([], Fails (wrap err))
  end.

(** A step that may panic. *)
Definition orPanic {A} (o : option A) : run A :=
  match o with
  | Some a => ([], Returns a)
  | None => ([], Panics)
  end.

Notation "x <- m ;; k" := (bind_run m (λ x, k))
  (at level 100, m at next level, right associativity, only parsing).

Definition calls {A} (m : run A) : list Call := m.1.
Definition result {A} (m : run A) : outcome A := m.2.

(** ** Documents *)

(** The sub-documents the endpoint carries around without ever looking
    inside them. *)
Record Payload : Type := {
  PodTemplateSpec : Type;
  ReplicationMeta : Type;
  DeploymentStrategy : Type;
  DeploymentTrigger : Type;
  ReplicationController : Type
}.

(** Modelled from the spec: the structural part of a deployment config (its
    Go declaration is not part of rest.go): the pod template, the replica
    count and selector, the rollout strategy, the ordered triggers. *)
Record DeploymentConfigSpec (Σ : Payload) : Type := {
  templateSpec : PodTemplateSpec Σ;
  replicationMeta : ReplicationMeta Σ;
  strategy : DeploymentStrategy Σ;
  triggers : list (DeploymentTrigger Σ)
}.

Arguments templateSpec {Σ} _.
Arguments replicationMeta {Σ} _.
Arguments strategy {Σ} _.
Arguments triggers {Σ} _.

(** A deployment config: [Name], [Namespace], [Annotations] (object meta),
    [Spec], and [Status.LatestVersion]. The versioned and the internal Go
    types have this one shape; [Convert] below goes from one to the other. *)
Record DeploymentConfig (Σ : Payload) : Type := {
  Name : string;
  Namespace : string;
  Annotations : GoMap;
  Spec : DeploymentConfigSpec Σ;
  Status_LatestVersion : Z
}.

Arguments Name {Σ} _.
Arguments Namespace {Σ} _.
Arguments Annotations {Σ} _.
Arguments Spec {Σ} _.
Arguments Status_LatestVersion {Σ} _.

(** [rollback.Spec]: the requested revision, and (modelled from the spec, as
    the Go declaration is not part of rest.go) the four inclusion flags. *)
Record DeploymentConfigRollbackSpec : Type := {
  Revision : Z;
  IncludeTemplate : bool;
  IncludeReplicationMeta : bool;
  IncludeStrategy : bool;
  IncludeTriggers : bool
}.

Record DeploymentConfigRollback : Type := {
  Rollback_Name : string;
  UpdatedAnnotations : GoMap;
  Rollback_Spec : DeploymentConfigRollbackSpec
}.

(** A [runtime.Object] handed to [Create]: a rollback, or anything else,
    known by its [%#v] rendering. *)
Inductive Object : Type :=
| RollbackObject (rollback : DeploymentConfigRollback)
| OtherObject (goSyntax : string).

(** The request context: the namespace value, when it carries one. *)
Record Context : Type := {
  namespaceValue : option string
}.

Definition NamespaceFrom (ctx : Context) : option string := namespaceValue ctx.

(** ** Collaborators *)

(** The [RollbackGenerator] interface. *)
Record RollbackGenerator (Σ : Payload) : Type := {
  GenerateRollback :
    DeploymentConfig Σ → DeploymentConfig Σ → DeploymentConfigRollbackSpec →
    DeploymentConfig Σ + error
}.

Arguments GenerateRollback {Σ} _ _ _ _.

(** [REST]: the generator, the deployment config getter ([namespace], then
    [name]) and the replication controller getter. *)
Record REST (Σ : Payload) : Type := {
  generator : RollbackGenerator Σ;
  dn : string → string → DeploymentConfig Σ + error;
  rn : string → string → ReplicationController Σ + error
}.

Arguments generator {Σ} _.
Arguments dn {Σ} _ _ _.
Arguments rn {Σ} _ _ _.

(** The functions of other packages that [Create] calls. *)
Record Library (Σ : Payload) : Type := {
  (** the [%q] verb of fmt on a string *)
  quote : string → string;
  (** [err.Error()], which is also the [%v] verb on an error *)
  Error : error → string;
  (** validation.ValidateDeploymentConfigRollback *)
  ValidateDeploymentConfigRollback : DeploymentConfigRollback → list FieldError;
  (** appsutil.LabelForDeploymentConfig *)
  LabelForDeploymentConfig : DeploymentConfig Σ → string;
  (** appsutil.DeploymentNameForConfigVersion *)
  DeploymentNameForConfigVersion : string → Z → string;
  (** appsserialization.DecodeDeploymentConfig *)
  DecodeDeploymentConfig : ReplicationController Σ → DeploymentConfig Σ + error;
  (** legacyscheme.Scheme.Convert into a fresh deployment config *)
  Convert : DeploymentConfig Σ → DeploymentConfig Σ + error
}.

Arguments quote {Σ} _ _.
Arguments Error {Σ} _ _.
Arguments ValidateDeploymentConfigRollback {Σ} _ _.
Arguments LabelForDeploymentConfig {Σ} _ _.
Arguments DeploymentNameForConfigVersion {Σ} _ _ _.
Arguments DecodeDeploymentConfig {Σ} _ _.
Arguments Convert {Σ} _ _.

(** ** The endpoint *)

Section Endpoint.

Variable Σ : Payload.
Variable lib : Library Σ.

(** [newInvalidError] (lines 119-122) *)
Definition newInvalidError (rollback : DeploymentConfigRollback) (reason : string) : error :=
  let err := field_Invalid "name" (Rollback_Name rollback) reason in
  NewInvalid (apps_Kind "DeploymentConfigRollback") (Rollback_Name rollback) [err].

(** [len(m)] and [m == nil] *)
Definition len (m : GoMap) : nat := size (entries m).

Definition isNil (m : GoMap) : bool :=
  match m with
  | nilMap => true
  | mkMap _ => false
  end.

(** Create, lines 73-80: the [switch] on [from.Status.LatestVersion]. The
    cases are tried from top to bottom and the first that matches returns
    its error. *)
Definition checkLatestVersion
    (from : DeploymentConfig Σ) (rollback : DeploymentConfigRollback) : run unit :=
  if Status_LatestVersion from =? 0 then
    failWith (newInvalidError rollback "cannot rollback an undeployed config")
  else if Status_LatestVersion from =? 1 then
    failWith (newInvalidError rollback
      ("no previous deployment exists for " +:+ quote lib (LabelForDeploymentConfig lib from)))
  else if Status_LatestVersion from =? Revision (Rollback_Spec rollback) then
    failWith (newInvalidError rollback
      ("version " +:+ pretty (Revision (Rollback_Spec rollback)) +:+ " is already the latest"))
  else unit_run ().

(** Create, lines 82-85: the local [revision]. *)
Definition targetRevision
    (from : DeploymentConfig Σ) (rollback : DeploymentConfigRollback) : Z :=
  let revision := wrap64 (Status_LatestVersion from - 1) in
  if 0 <? Revision (Rollback_Spec rollback) then Revision (Rollback_Spec rollback)
  else revision.

(** Create, lines 104-109: the update of [from.Annotations], the entries of
    [rollback.UpdatedAnnotations] being visited in the order [order] (Go
    leaves the order of a [range] over a map unspecified). *)
Definition updateAnnotationsIn (order : list (string * string))
    (annotations updated : GoMap) : option GoMap :=
  let annotations :=
    if isNil annotations && (0 <? len updated)%nat then mkMap ∅
    else annotations in
  assignAll order annotations.

Definition updateAnnotations (annotations updated : GoMap) : option GoMap :=
  updateAnnotationsIn (map_to_list (entries updated)) annotations updated.

Definition setAnnotations (from : DeploymentConfig Σ) (annotations : GoMap) : DeploymentConfig Σ :=
  {| Name := Name from;
     Namespace := Namespace from;
     Annotations := annotations;
     Spec := Spec from;
     Status_LatestVersion := Status_LatestVersion from |}.

(** [REST.Create] (lines 51-117) *)
Definition Create (r : REST Σ) (ctx : Context) (obj : Object)
    (createValidation : Object → option error) : run (DeploymentConfig Σ) :=
  match NamespaceFrom ctx with
  | None => failWith (NewBadRequest "namespace parameter required.")
  | Some namespace =>
    match obj with
    | OtherObject goSyntax =>
        failWith (NewBadRequest ("not a rollback spec: " +:+ goSyntax))
    | RollbackObject rollback =>
        errs <- perform (CallValidateDeploymentConfigRollback (Rollback_Name rollback))
                  (ValidateDeploymentConfigRollback lib rollback) ;;
        if (0 <? length errs)%nat then
          failWith (NewInvalid (apps_Kind "DeploymentConfigRollback") (Rollback_Name rollback) errs)
        else
        verdict <- perform CallCreateValidation (createValidation obj) ;;
        match verdict with
        | Some err => failWith err
        | None =>
        from <- tryCall (CallGetDeploymentConfig namespace (Rollback_Name rollback))
                  (dn r namespace (Rollback_Name rollback))
                  (λ err, newInvalidError rollback
                     ("cannot get deployment config " +:+ quote lib (Rollback_Name rollback)
                      +:+ ": " +:+ Error lib err)) ;;
        _ <- checkLatestVersion from rollback ;;
        let revision := targetRevision from rollback in
        let name := DeploymentNameForConfigVersion lib (Name from) revision in
        targetDeployment <- tryCall (CallGetReplicationController namespace name)
                  (rn r namespace name)
                  (λ err, newInvalidError rollback (Error lib err)) ;;
        to <- check (DecodeDeploymentConfig lib targetDeployment)
                  (λ err, newInvalidError rollback
                     ("couldn't decode deployment config from deployment: " +:+ Error lib err)) ;;
        toInternal <- check (Convert lib to) NewInternalError ;;
        annotations <- orPanic (updateAnnotations (Annotations from) (UpdatedAnnotations rollback)) ;;
        let from := setAnnotations from annotations in
        fromInternal <- check (Convert lib from) NewInternalError ;;
        check (GenerateRollback (generator r) fromInternal toInternal (Rollback_Spec rollback))
              (λ err, err)
        end
    end
  end.

End Endpoint.

Arguments checkLatestVersion {Σ} lib from rollback.
Arguments targetRevision {Σ} from rollback.
Arguments setAnnotations {Σ} from annotations.
Arguments Create {Σ} lib r ctx obj createValidation.

(** The requests that get as far as the read of the deployment config: the
    context carries [namespace], the object is the rollback [rollback], and
    both validations accept it. *)
Definition reachesStore {Σ} (lib : Library Σ) (ctx : Context) (obj : Object)
    (createValidation : Object → option error)
    (namespace : string) (rollback : DeploymentConfigRollback) : Prop :=
  NamespaceFrom ctx = Some namespace ∧
  obj = RollbackObject rollback ∧
  ValidateDeploymentConfigRollback lib rollback = [] ∧
  createValidation obj = None.

(** The calls made up to and including the read of the deployment config. *)
Definition callsUpToConfig (namespace : string) (rollback : DeploymentConfigRollback) : list Call :=
  [ CallValidateDeploymentConfigRollback (Rollback_Name rollback);
    CallCreateValidation;
    CallGetDeploymentConfig namespace (Rollback_Name rollback) ].

(** The annotations [Create] leaves on [from]: untouched and still nil when
    there is nothing to write into a nil map, and otherwise the allocated
    table where every updated key has its new value. *)
Definition updatedAnnotations (annotations updated : GoMap) : GoMap :=
  if isNil annotations && (len updated =? 0)%nat then nilMap
  else mkMap (entries updated ∪ entries annotations).

(** ** The generator *)

Module Mask.

(** Modelled from the spec: the merge mask of the field selector, four
    independent gates. *)
Record t : Type := {
  template : bool;
  replicationMeta : bool;
  strategy : bool;
  triggers : bool
}.

Definition all (b : bool) : t :=
  {| template := b; replicationMeta := b; strategy := b; triggers := b |}.

End Mask.

(** Modelled from the spec: [selectionMask], the gates copied one for one
    from the request's inclusion flags (the generator's source file is not
    part of the sources). *)
Definition selectionMask (spec : DeploymentConfigRollbackSpec) : Mask.t :=
  {| Mask.template := IncludeTemplate spec;
     Mask.replicationMeta := IncludeReplicationMeta spec;
     Mask.strategy := IncludeStrategy spec;
     Mask.triggers := IncludeTriggers spec |}.

(** Modelled from the spec: steps 1, 2 and 4 of the rollback merger, which is
    what [RollbackGenerator.GenerateRollback] stands for (the generator's
    source file is not part of the sources): a copy of [current] in which
    each sub-field whose gate is true is overwritten with that of [target]. *)
Definition overwriteStructure {Σ} (current target : DeploymentConfig Σ) (mask : Mask.t)
    : DeploymentConfig Σ :=
  {| Name := Name current;
     Namespace := Namespace current;
     Annotations := Annotations current;
     Spec :=
       {| templateSpec :=
            if Mask.template mask then templateSpec (Spec target)
            else templateSpec (Spec current);
          replicationMeta :=
            if Mask.replicationMeta mask then replicationMeta (Spec target)
            else replicationMeta (Spec current);
          strategy :=
            if Mask.strategy mask then strategy (Spec target)
            else strategy (Spec current);
          triggers :=
            if Mask.triggers mask then triggers (Spec target)
            else triggers (Spec current) |};
     Status_LatestVersion := Status_LatestVersion current |}.

(** Modelled from the spec: [merge], the rollback merger with its annotation
    step (step 3, done on the source document before the structural
    overwrite): start from the annotations of [current], an empty mapping if
    absent, and set every key of [annotationOverrides]. *)
Definition merge {Σ} (current target : DeploymentConfig Σ) (mask : Mask.t)
    (annotationOverrides : gmap string string) : DeploymentConfig Σ :=
  let annotations :=
    map_fold (λ key value acc, <[key := value]> acc)
      (entries (Annotations current)) annotationOverrides in
  overwriteStructure (setAnnotations current (mkMap annotations)) target mask.

(** Modelled from the spec: [NewRollbackGenerator], the one production
    implementation of the generator capability (its source file is not part
    of the sources). *)
Definition NewRollbackGenerator (Σ : Payload) : RollbackGenerator Σ :=
  {| GenerateRollback from to spec := inl (overwriteStructure from to (selectionMask spec)) |}.

(** [NewREST], given the two getters the clients provide. *)
Definition NewREST {Σ}
    (deploymentConfigs : string → string → DeploymentConfig Σ + error)
    (replicationControllers : string → string → ReplicationController Σ + error) : REST Σ :=
  {| generator := NewRollbackGenerator Σ;
     dn := deploymentConfigs;
     rn := replicationControllers |}.

(** ** A concrete deployment, to run the endpoint on *)

Module Example.

Definition payload : Payload :=
  {| PodTemplateSpec := string;
     ReplicationMeta := Z;
     DeploymentStrategy := string;
     DeploymentTrigger := string;
     ReplicationController := Z |}.

Definition doubleQuote : string := String (Ascii.ascii_of_nat 34) EmptyString.

Definition quoted (s : string) : string := doubleQuote +:+ s +:+ doubleQuote.

Fixpoint errorText (err : error) : string :=
  match err with
  | NewBadRequest reason => reason
  | NewInvalid _ name _ => quoted name +:+ " is invalid"
  | NewInternalError cause => "Internal error occurred: " +:+ errorText cause
  | NewNotFound resource name => resource +:+ " " +:+ quoted name +:+ " not found"
  | errorString text => text
  end.

Definition validate (rollback : DeploymentConfigRollback) : list FieldError :=
  (if decide (Rollback_Name rollback = EmptyString) then
     [ {| Type_ := ErrorTypeRequired; Field := "name";
          BadValue := EmptyString; Detail := "must be given" |} ]
   else []) ++
  (if Revision (Rollback_Spec rollback) <? 0 then
     [ field_Invalid "spec.revision" (pretty (Revision (Rollback_Spec rollback)))
         "must be non-negative" ]
   else []).

(** The config of the deployment as it stood at version [version]. *)
Definition configAt (version : Z) (annotations : GoMap) : DeploymentConfig payload :=
  {| Name := "frontend";
     Namespace := "prod";
     Annotations := annotations;
     Spec :=
       Build_DeploymentConfigSpec payload
         ("frontend:v" +:+ pretty version) version "Rolling" ["ConfigChange"];
     Status_LatestVersion := version |}.

Definition deploymentName (name : string) (version : Z) : string :=
  name +:+ "-" +:+ pretty version.

(** A replication controller is known by the version it realises; one of a
    negative version holds no decodable config. *)
Definition decode (controller : Z) : DeploymentConfig payload + error :=
  if controller <? 0 then inr (errorString "no encoded config")
  else inl (configAt controller nilMap).

Definition label (config : DeploymentConfig payload) : string :=
  Namespace config +:+ "/" +:+ Name config.

Definition library : Library payload :=
  Build_Library payload quoted errorText validate label deploymentName decode inl.

(** A store that holds the one config [current]. *)
Definition deploymentConfigs (current : DeploymentConfig payload)
    (namespace name : string) : DeploymentConfig payload + error :=
  if decide (namespace = Namespace current ∧ name = Name current) then inl current
  else inr (NewNotFound "deploymentconfigs.apps.openshift.io" name).

(** A store that holds the controllers of the versions [versions]. *)
Definition replicationControllers (versions : list Z)
    (namespace name : string) : Z + error :=
  match list_find (λ version, deploymentName "frontend" version = name) versions with
  | Some (_, version) => inl version
  | None => inr (NewNotFound "replicationcontrollers" name)
  end.

Definition rest (latest : Z) (annotations : GoMap) (versions : list Z) : REST payload :=
  @NewREST payload
    (deploymentConfigs (configAt latest annotations)) (replicationControllers versions).

Definition inNamespace : Context := {| namespaceValue := Some "prod" |}.
Definition noNamespace : Context := {| namespaceValue := None |}.

Definition request (name : string) (revision : Z) (updated : GoMap) : DeploymentConfigRollback :=
  {| Rollback_Name := name;
     UpdatedAnnotations := updated;
     Rollback_Spec :=
       {| Revision := revision;
          IncludeTemplate := true;
          IncludeReplicationMeta := false;
          IncludeStrategy := false;
          IncludeTriggers := false |} |}.

Definition accept (obj : Object) : option error := None.

End Example.


(** ** The ways a run of [Create] can go *)

(** The name of the replication controller [Create] looks up (line 88). *)
Definition controllerName {Σ} (lib : Library Σ)
    (from : DeploymentConfig Σ) (rollback : DeploymentConfigRollback) : string :=
  DeploymentNameForConfigVersion lib (Name from) (targetRevision from rollback).

(** The calls made up to and including the read of the replication
    controller. *)
Definition callsUpToController {Σ} (lib : Library Σ) (namespace : string)
    (rollback : DeploymentConfigRollback) (from : DeploymentConfig Σ) : list Call :=
  callsUpToConfig namespace rollback ++
  [CallGetReplicationController namespace (controllerName lib from rollback)].

(** The requests that get past the switch: they reach the store, the config
    [from] is read, and its latest version is neither 0, nor 1, nor the
    requested revision. *)
Definition passesSwitch {Σ} (lib : Library Σ) (r : REST Σ) (ctx : Context) (obj : Object)
    (createValidation : Object → option error)
    (namespace : string) (rollback : DeploymentConfigRollback)
    (from : DeploymentConfig Σ) : Prop :=
  reachesStore lib ctx obj createValidation namespace rollback ∧
  dn r namespace (Rollback_Name rollback) = inl from ∧
  Status_LatestVersion from ≠ 0 ∧
  Status_LatestVersion from ≠ 1 ∧
  Status_LatestVersion from ≠ Revision (Rollback_Spec rollback).

(** The requests for which the target config is obtained: past the switch,
    the replication controller is found, it decodes to [to], and [to]
    converts to [toInternal]. *)
Definition obtainsTarget {Σ} (lib : Library Σ) (r : REST Σ) (ctx : Context) (obj : Object)
    (createValidation : Object → option error)
    (namespace : string) (rollback : DeploymentConfigRollback)
    (from to toInternal : DeploymentConfig Σ) : Prop :=
  passesSwitch lib r ctx obj createValidation namespace rollback from ∧
  ∃ targetDeployment,
    rn r namespace (controllerName lib from rollback) = inl targetDeployment ∧
    DecodeDeploymentConfig lib targetDeployment = inl to ∧
    Convert lib to = inl toInternal.

(** The source config as [Create] converts it: [from] with its annotations
    updated. *)
Definition updatedSource {Σ} (from : DeploymentConfig Σ)
    (rollback : DeploymentConfigRollback) : DeploymentConfig Σ :=
  setAnnotations from (updatedAnnotations (Annotations from) (UpdatedAnnotations rollback)).

(** The runs of [Create], one rule for each [return] of the function, in the
    order of the source: the calls made and the way the run ends. *)
Inductive CreateRun {Σ} (lib : Library Σ) (r : REST Σ) (ctx : Context) (obj : Object)
    (createValidation : Object → option error)
    : list Call → outcome (DeploymentConfig Σ) → Prop :=
| run_no_namespace :
    NamespaceFrom ctx = None →
    CreateRun lib r ctx obj createValidation
      [] (Fails (NewBadRequest "namespace parameter required."))
| run_not_a_rollback namespace goSyntax :
    NamespaceFrom ctx = Some namespace →
    obj = OtherObject goSyntax →
    CreateRun lib r ctx obj createValidation
      [] (Fails (NewBadRequest ("not a rollback spec: " +:+ goSyntax)))
| run_invalid_request namespace rollback :
    NamespaceFrom ctx = Some namespace →
    obj = RollbackObject rollback →
    ValidateDeploymentConfigRollback lib rollback ≠ [] →
    CreateRun lib r ctx obj createValidation
      [CallValidateDeploymentConfigRollback (Rollback_Name rollback)]
      (Fails (NewInvalid (apps_Kind "DeploymentConfigRollback") (Rollback_Name rollback)
                (ValidateDeploymentConfigRollback lib rollback)))
| run_refused namespace rollback err :
    NamespaceFrom ctx = Some namespace →
    obj = RollbackObject rollback →
    ValidateDeploymentConfigRollback lib rollback = [] →
    createValidation obj = Some err →
    CreateRun lib r ctx obj createValidation
      [CallValidateDeploymentConfigRollback (Rollback_Name rollback); CallCreateValidation]
      (Fails err)
| run_config_not_read namespace rollback err :
    reachesStore lib ctx obj createValidation namespace rollback →
    dn r namespace (Rollback_Name rollback) = inr err →
    CreateRun lib r ctx obj createValidation
      (callsUpToConfig namespace rollback)
      (Fails (newInvalidError rollback
                ("cannot get deployment config " +:+ quote lib (Rollback_Name rollback)
                 +:+ ": " +:+ Error lib err)))
| run_stopped_by_switch namespace rollback from err :
    reachesStore lib ctx obj createValidation namespace rollback →
    dn r namespace (Rollback_Name rollback) = inl from →
    checkLatestVersion lib from rollback = failWith err →
    CreateRun lib r ctx obj createValidation
      (callsUpToConfig namespace rollback) (Fails err)
| run_controller_not_read namespace rollback from err :
    passesSwitch lib r ctx obj createValidation namespace rollback from →
    rn r namespace (controllerName lib from rollback) = inr err →
    CreateRun lib r ctx obj createValidation
      (callsUpToController lib namespace rollback from)
      (Fails (newInvalidError rollback (Error lib err)))
| run_not_decoded namespace rollback from targetDeployment err :
    passesSwitch lib r ctx obj createValidation namespace rollback from →
    rn r namespace (controllerName lib from rollback) = inl targetDeployment →
    DecodeDeploymentConfig lib targetDeployment = inr err →
    CreateRun lib r ctx obj createValidation
      (callsUpToController lib namespace rollback from)
      (Fails (newInvalidError rollback
                ("couldn't decode deployment config from deployment: " +:+ Error lib err)))
| run_target_not_converted namespace rollback from targetDeployment to err :
    passesSwitch lib r ctx obj createValidation namespace rollback from →
    rn r namespace (controllerName lib from rollback) = inl targetDeployment →
    DecodeDeploymentConfig lib targetDeployment = inl to →
    Convert lib to = inr err →
    CreateRun lib r ctx obj createValidation
      (callsUpToController lib namespace rollback from)
      (Fails (NewInternalError err))
| run_source_not_converted namespace rollback from to toInternal err :
    obtainsTarget lib r ctx obj createValidation namespace rollback from to toInternal →
    Convert lib (updatedSource from rollback) = inr err →
    CreateRun lib r ctx obj createValidation
      (callsUpToController lib namespace rollback from)
      (Fails (NewInternalError err))
| run_not_generated namespace rollback from to toInternal fromInternal err :
    obtainsTarget lib r ctx obj createValidation namespace rollback from to toInternal →
    Convert lib (updatedSource from rollback) = inl fromInternal →
    GenerateRollback (generator r) fromInternal toInternal (Rollback_Spec rollback) = inr err →
    CreateRun lib r ctx obj createValidation
      (callsUpToController lib namespace rollback from)
      (Fails err)
| run_generated namespace rollback from to toInternal fromInternal config :
    obtainsTarget lib r ctx obj createValidation namespace rollback from to toInternal →
    Convert lib (updatedSource from rollback) = inl fromInternal →
    GenerateRollback (generator r) fromInternal toInternal (Rollback_Spec rollback)
    = inl config →
    CreateRun lib r ctx obj createValidation
      (callsUpToController lib namespace rollback from)
      (Returns config).

(** A store read among the calls. *)
Definition isStoreRead (c : Call) : bool :=
  match c with
  | CallGetDeploymentConfig _ _ | CallGetReplicationController _ _ => true
  | _ => false
  end.

(** ** Collaborators that fail, to run the endpoint on *)

Module Faults.

(** An admission that turns every object down. *)
Definition refuse (obj : Object) : option error :=
  Some (errorString "admission denied").

(** A library whose decoder rejects every controller. *)
Definition undecodable : Library Example.payload :=
  Build_Library Example.payload Example.quoted Example.errorText Example.validate
    Example.label Example.deploymentName
    (λ _, inr (errorString "unknown encoding")) inl.

(** A library whose conversion rejects the configs that satisfy [bad]. *)
Definition unconvertible (bad : DeploymentConfig Example.payload → bool)
    : Library Example.payload :=
  Build_Library Example.payload Example.quoted Example.errorText Example.validate
    Example.label Example.deploymentName Example.decode
    (λ config, if bad config then inr (errorString "no conversion") else inl config).

(** The example store with a generator that always fails. *)
Definition restWithoutGenerator (latest : Z) (versions : list Z) : REST Example.payload :=
  {| generator :=
       {| GenerateRollback := λ _ _ _, inr (errorString "generator unavailable") |};
     dn := Example.deploymentConfigs (Example.configAt latest nilMap);
     rn := Example.replicationControllers versions |}.

End Faults.

(** * Properties *)

(** ** Machine integers *)

Lemma wrap64_in_range (z : Z) : int64_range z → wrap64 z = z.
Proof.
  unfold int64_range, int64_min, int64_max, wrap64. intros Hz.
  rewrite Z.mod_small by lia. lia.
Qed.

Lemma wrap64_pred (z : Z) : int64_range z → 1 < z → wrap64 (z - 1) = z - 1.
Proof.
  intros Hz Hlt. apply wrap64_in_range.
  unfold int64_range, int64_min, int64_max in *. lia.
Qed.

(** ** Assignments into a map *)

Lemma assignAll_allocated (order : list (string * string)) (t : gmap string string) :
  assignAll order (mkMap t)
  = Some (mkMap (foldl (λ acc kv, <[kv.1 := kv.2]> acc) t order)).
Proof.
  unfold assignAll. revert t.
  induction order as [|[key value] order IH]; intros t; [done|].
  cbn. apply IH.
Qed.

Lemma foldl_insert_union (order : list (string * string)) (t : gmap string string) :
  NoDup order.*1 →
  foldl (λ acc kv, <[kv.1 := kv.2]> acc) t order = list_to_map order ∪ t.
Proof.
  revert t. induction order as [|[key value] order IH]; intros t Hnodup.
  - cbn. by rewrite (left_id_L ∅ (∪)).
  - cbn in *. apply NoDup_cons in Hnodup as [Hfresh Hnodup].
    rewrite IH by done.
    rewrite <-insert_union_l. symmetry.
    apply insert_union_r. by apply not_elem_of_list_to_map.
Qed.

(** Whatever the order in which [range] visits the entries of [updated], an
    allocated map ends as the union in which the updated entries win. *)
Lemma assignAll_range (order : list (string * string)) (updated t : gmap string string) :
  order ≡ₚ map_to_list updated →
  assignAll order (mkMap t) = Some (mkMap (updated ∪ t)).
Proof.
  intros Hperm.
  assert (NoDup order.*1) as Hnodup.
  { rewrite Hperm. apply NoDup_fst_map_to_list. }
  rewrite assignAll_allocated, foldl_insert_union by done.
  rewrite (list_to_map_proper order (map_to_list updated)) by done.
  by rewrite list_to_map_to_list.
Qed.

Lemma len_zero (m : GoMap) : len m = 0%nat ↔ entries m = ∅.
Proof. unfold len. apply map_size_empty_iff. Qed.

Lemma updateAnnotationsIn_spec (order : list (string * string)) (annotations updated : GoMap) :
  order ≡ₚ map_to_list (entries updated) →
  updateAnnotationsIn order annotations updated
  = Some (updatedAnnotations annotations updated).
Proof.
  intros Hperm. unfold updateAnnotationsIn, updatedAnnotations.
  destruct annotations as [|t]; cbn [isNil andb entries].
  - destruct (len updated) as [|n] eqn:Hlen; cbn.
    + apply len_zero in Hlen. rewrite Hlen, map_to_list_empty in Hperm.
      apply Permutation_nil_r in Hperm as ->. done.
    + by apply assignAll_range.
  - by apply assignAll_range.
Qed.

Lemma updateAnnotations_spec (annotations updated : GoMap) :
  updateAnnotations annotations updated = Some (updatedAnnotations annotations updated).
Proof. by apply updateAnnotationsIn_spec. Qed.

(** ** Runs of [Create] *)

Lemma no_lookup_up_to_config (namespace : string) (rollback : DeploymentConfigRollback)
    (namespace' name : string) :
  CallGetReplicationController namespace' name ∉ callsUpToConfig namespace rollback.
Proof.
  unfold callsUpToConfig. rewrite !not_elem_of_cons. repeat split; try discriminate.
  apply not_elem_of_nil.
Qed.

Ltac run_to_config Hreach Hget :=
  destruct Hreach as (Hns & -> & Hvalid & Hcv);
  unfold Create; rewrite Hns; cbn; rewrite Hvalid; cbn; rewrite Hcv; cbn;
  rewrite Hget; cbn.

Section Runs.

Context {Σ : Payload}.
Variable lib : Library Σ.
Variable r : REST Σ.
Variable ctx : Context.
Variable obj : Object.
Variable createValidation : Object → option error.
Variable namespace : string.
Variable rollback : DeploymentConfigRollback.

Lemma checkLatestVersion_passes (from : DeploymentConfig Σ) :
  Status_LatestVersion from ≠ 0 →
  Status_LatestVersion from ≠ 1 →
  Status_LatestVersion from ≠ Revision (Rollback_Spec rollback) →
  checkLatestVersion lib from rollback = unit_run ().
Proof.
  intros H0 H1 Hrev. unfold checkLatestVersion.
  apply Z.eqb_neq in H0, H1, Hrev. by rewrite H0, H1, Hrev.
Qed.

(** A request that fails one of the three cases of the switch ends there,
    with the error of [checkLatestVersion], having read the config only. *)
Lemma Create_stops_at_switch (from : DeploymentConfig Σ) (err : error) :
  reachesStore lib ctx obj createValidation namespace rollback →
  dn r namespace (Rollback_Name rollback) = inl from →
  checkLatestVersion lib from rollback = failWith err →
  Create lib r ctx obj createValidation = (callsUpToConfig namespace rollback, Fails err).
Proof.
  intros Hreach Hget Hswitch. run_to_config Hreach Hget.
  by rewrite Hswitch.
Qed.

(** What [Create] does once the switch is passed: one read of the replication
    controller named after the target revision, then decoding, conversions,
    the update of the annotations (which never panics) and the generator. *)
Lemma Create_after_switch (from : DeploymentConfig Σ) :
  reachesStore lib ctx obj createValidation namespace rollback →
  dn r namespace (Rollback_Name rollback) = inl from →
  Status_LatestVersion from ≠ 0 →
  Status_LatestVersion from ≠ 1 →
  Status_LatestVersion from ≠ Revision (Rollback_Spec rollback) →
  let name := DeploymentNameForConfigVersion lib (Name from) (targetRevision from rollback) in
  calls (Create lib r ctx obj createValidation)
  = callsUpToConfig namespace rollback ++ [CallGetReplicationController namespace name]
  ∧ result (Create lib r ctx obj createValidation)
  = match rn r namespace name with
    | inr err => Fails (newInvalidError rollback (Error lib err))
    | inl targetDeployment =>
      match DecodeDeploymentConfig lib targetDeployment with
      | inr err =>
          Fails (newInvalidError rollback
                   ("couldn't decode deployment config from deployment: " +:+ Error lib err))
      | inl to =>
        match Convert lib to with
        | inr err => Fails (NewInternalError err)
        | inl toInternal =>
          match Convert lib (setAnnotations from
                  (updatedAnnotations (Annotations from) (UpdatedAnnotations rollback))) with
          | inr err => Fails (NewInternalError err)
          | inl fromInternal =>
            match GenerateRollback (generator r) fromInternal toInternal
                    (Rollback_Spec rollback) with
            | inr err => Fails err
            | inl config => Returns config
            end
          end
        end
      end
    end.
Proof.
  intros Hreach Hget H0 H1 Hrev name. run_to_config Hreach Hget.
  rewrite checkLatestVersion_passes by done. cbn. fold name.
  rewrite updateAnnotations_spec.
  destruct (rn r namespace name) as [targetDeployment|err]; cbn; [|done].
  destruct (DecodeDeploymentConfig lib targetDeployment) as [to|err]; cbn; [|done].
  destruct (Convert lib to) as [toInternal|err]; cbn; [|done].
  destruct (Convert lib _) as [fromInternal|err]; cbn; [|done].
  by destruct (GenerateRollback _ _ _ _).
Qed.

(** Whatever it is given, [Create] returns or fails: the one step that could
    panic, the assignments into [from.Annotations], never does. *)
Lemma Create_never_panics :
  result (Create lib r ctx obj createValidation) ≠ Panics.
Proof.
  unfold Create.
  destruct (NamespaceFrom ctx) as [ns|]; [|done].
  destruct obj as [request|goSyntax]; [|done]. cbn.
  destruct (ValidateDeploymentConfigRollback lib request) as [|fieldError errs]; [|done]. cbn.
  destruct (createValidation (RollbackObject request)) as [err|]; [done|]. cbn.
  destruct (dn r ns (Rollback_Name request)) as [from|err]; [|done]. cbn.
  unfold checkLatestVersion.
  destruct (Status_LatestVersion from =? 0); [done|].
  destruct (Status_LatestVersion from =? 1); [done|].
  destruct (Status_LatestVersion from =? Revision (Rollback_Spec request)); [done|]. cbn.
  rewrite updateAnnotations_spec.
  destruct (rn r ns _) as [targetDeployment|err]; [|done]. cbn.
  destruct (DecodeDeploymentConfig lib targetDeployment) as [to|err]; [|done]. cbn.
  destruct (Convert lib to) as [toInternal|err]; [|done]. cbn.
  destruct (Convert lib _) as [fromInternal|err]; [|done]. cbn.
  by destruct (GenerateRollback _ _ _ _).
Qed.

End Runs.

(** ** The target revision *)

(** C1. When the config read from the store has a latest version above 1 and
    the request passes the three cases of the switch, the revision that
    [Create] resolves is the requested one if that is positive and
    [latestVersion - 1] otherwise (zero included), and the historical record
    it then looks up is the one named after that revision. *)
Theorem Create_target_revision {Σ : Payload} (lib : Library Σ) (r : REST Σ)
    (ctx : Context) (obj : Object) (createValidation : Object → option error)
    (namespace : string) (rollback : DeploymentConfigRollback) (from : DeploymentConfig Σ) :
  reachesStore lib ctx obj createValidation namespace rollback →
  dn r namespace (Rollback_Name rollback) = inl from →
  int64_range (Status_LatestVersion from) →
  1 < Status_LatestVersion from →
  Status_LatestVersion from ≠ Revision (Rollback_Spec rollback) →
  (0 < Revision (Rollback_Spec rollback) →
     targetRevision from rollback = Revision (Rollback_Spec rollback)) ∧
  (Revision (Rollback_Spec rollback) ≤ 0 →
     targetRevision from rollback = Status_LatestVersion from - 1) ∧
  calls (Create lib r ctx obj createValidation)
  = callsUpToConfig namespace rollback ++
    [CallGetReplicationController namespace
       (DeploymentNameForConfigVersion lib (Name from) (targetRevision from rollback))].
Proof.
  intros Hreach Hget Hrange Hlatest Hrev. split; [|split].
  - intros Hpos. unfold targetRevision.
    apply Z.ltb_lt in Hpos. by rewrite Hpos.
  - intros Hnonpos. unfold targetRevision.
    apply Z.ltb_ge in Hnonpos. rewrite Hnonpos.
    by apply wrap64_pred.
  - apply (Create_after_switch lib r ctx obj createValidation namespace rollback from);
      [done | done | lia | lia | done].
Qed.

(** ** The three cases of the switch *)

(** C2. A config that was never deployed (latest version 0) cannot be rolled
    back: whatever revision is requested, [Create] fails with "cannot
    rollback an undeployed config", and no replication controller is looked
    up. *)
Theorem Create_undeployed {Σ : Payload} (lib : Library Σ) (r : REST Σ)
    (ctx : Context) (obj : Object) (createValidation : Object → option error)
    (namespace : string) (rollback : DeploymentConfigRollback) (from : DeploymentConfig Σ) :
  reachesStore lib ctx obj createValidation namespace rollback →
  dn r namespace (Rollback_Name rollback) = inl from →
  Status_LatestVersion from = 0 →
  Create lib r ctx obj createValidation
  = (callsUpToConfig namespace rollback,
     Fails (newInvalidError rollback "cannot rollback an undeployed config")) ∧
  ∀ namespace' name,
    CallGetReplicationController namespace' name ∉ calls (Create lib r ctx obj createValidation).
Proof.
  intros Hreach Hget Hzero.
  assert (Create lib r ctx obj createValidation
          = (callsUpToConfig namespace rollback,
             Fails (newInvalidError rollback "cannot rollback an undeployed config"))) as Hrun.
  { apply (Create_stops_at_switch lib r ctx obj createValidation namespace rollback from);
      [done | done |].
    unfold checkLatestVersion. by rewrite Hzero. }
  split; [done|]. intros namespace' name. rewrite Hrun. apply no_lookup_up_to_config.
Qed.

(** C3. A config whose latest version is 1 has no previous deployment:
    whatever revision is requested, revision 1 included, [Create] fails with
    "no previous deployment exists for ..." and not with the already-latest
    error; no replication controller is looked up. *)
Theorem Create_no_previous_deployment {Σ : Payload} (lib : Library Σ) (r : REST Σ)
    (ctx : Context) (obj : Object) (createValidation : Object → option error)
    (namespace : string) (rollback : DeploymentConfigRollback) (from : DeploymentConfig Σ) :
  reachesStore lib ctx obj createValidation namespace rollback →
  dn r namespace (Rollback_Name rollback) = inl from →
  Status_LatestVersion from = 1 →
  Create lib r ctx obj createValidation
  = (callsUpToConfig namespace rollback,
     Fails (newInvalidError rollback
              ("no previous deployment exists for "
               +:+ quote lib (LabelForDeploymentConfig lib from)))) ∧
  ∀ namespace' name,
    CallGetReplicationController namespace' name ∉ calls (Create lib r ctx obj createValidation).
Proof.
  intros Hreach Hget Hone.
  assert (Create lib r ctx obj createValidation
          = (callsUpToConfig namespace rollback,
             Fails (newInvalidError rollback
                      ("no previous deployment exists for "
                       +:+ quote lib (LabelForDeploymentConfig lib from))))) as Hrun.
  { apply (Create_stops_at_switch lib r ctx obj createValidation namespace rollback from);
      [done | done |].
    unfold checkLatestVersion. by rewrite Hone. }
  split; [done|]. intros namespace' name. rewrite Hrun. apply no_lookup_up_to_config.
Qed.

(** C4. With a latest version above 1, a request for that very version fails
    with "version N is already the latest", before any replication
    controller is looked up. *)
Theorem Create_already_latest {Σ : Payload} (lib : Library Σ) (r : REST Σ)
    (ctx : Context) (obj : Object) (createValidation : Object → option error)
    (namespace : string) (rollback : DeploymentConfigRollback) (from : DeploymentConfig Σ) :
  reachesStore lib ctx obj createValidation namespace rollback →
  dn r namespace (Rollback_Name rollback) = inl from →
  1 < Status_LatestVersion from →
  Revision (Rollback_Spec rollback) = Status_LatestVersion from →
  Create lib r ctx obj createValidation
  = (callsUpToConfig namespace rollback,
     Fails (newInvalidError rollback
              ("version " +:+ pretty (Status_LatestVersion from) +:+ " is already the latest"))) ∧
  ∀ namespace' name,
    CallGetReplicationController namespace' name ∉ calls (Create lib r ctx obj createValidation).
Proof.
  intros Hreach Hget Hlatest Hsame.
  assert (Create lib r ctx obj createValidation
          = (callsUpToConfig namespace rollback,
             Fails (newInvalidError rollback
                      ("version " +:+ pretty (Status_LatestVersion from)
                       +:+ " is already the latest")))) as Hrun.
  { apply (Create_stops_at_switch lib r ctx obj createValidation namespace rollback from);
      [done | done |].
    unfold checkLatestVersion. rewrite Hsame.
    destruct (Status_LatestVersion from =? 0) eqn:H0; [apply Z.eqb_eq in H0; lia|].
    destruct (Status_LatestVersion from =? 1) eqn:H1; [apply Z.eqb_eq in H1; lia|].
    by rewrite Z.eqb_refl. }
  split; [done|]. intros namespace' name. rewrite Hrun. apply no_lookup_up_to_config.
Qed.

(** C8, as the code has it. A nonzero requested revision above the latest
    version is not compared with it: short of the latest version being 0 or
    1, which fail as for any request, [Create] goes on to look up the
    replication controller of the resolved revision (the requested one when
    positive). The request fails as invalid when that lookup fails, and the
    rollback is generated when the controller exists and decodes. *)
Theorem Create_revision_above_latest {Σ : Payload} (lib : Library Σ) (r : REST Σ)
    (ctx : Context) (obj : Object) (createValidation : Object → option error)
    (namespace : string) (rollback : DeploymentConfigRollback) (from : DeploymentConfig Σ) :
  reachesStore lib ctx obj createValidation namespace rollback →
  dn r namespace (Rollback_Name rollback) = inl from →
  Revision (Rollback_Spec rollback) ≠ 0 →
  Status_LatestVersion from < Revision (Rollback_Spec rollback) →
  (Status_LatestVersion from = 0 ∨ Status_LatestVersion from = 1 →
     ∃ err, Create lib r ctx obj createValidation
            = (callsUpToConfig namespace rollback, Fails err)
          ∧ ReasonForError err = StatusReasonInvalid) ∧
  (Status_LatestVersion from ≠ 0 → Status_LatestVersion from ≠ 1 →
     let target :=
       if 0 <? Revision (Rollback_Spec rollback) then Revision (Rollback_Spec rollback)
       else wrap64 (Status_LatestVersion from - 1) in
     let name := DeploymentNameForConfigVersion lib (Name from) target in
     calls (Create lib r ctx obj createValidation)
     = callsUpToConfig namespace rollback ++ [CallGetReplicationController namespace name] ∧
     (∀ err, rn r namespace name = inr err →
        result (Create lib r ctx obj createValidation)
        = Fails (newInvalidError rollback (Error lib err))) ∧
     (∀ targetDeployment to toInternal fromInternal,
        rn r namespace name = inl targetDeployment →
        DecodeDeploymentConfig lib targetDeployment = inl to →
        Convert lib to = inl toInternal →
        Convert lib (setAnnotations from
          (updatedAnnotations (Annotations from) (UpdatedAnnotations rollback)))
        = inl fromInternal →
        result (Create lib r ctx obj createValidation)
        = match GenerateRollback (generator r) fromInternal toInternal
                  (Rollback_Spec rollback) with
          | inr err => Fails err
          | inl config => Returns config
          end)).
Proof.
  intros Hreach Hget Hnonzero Habove. split.
  - intros [Hzero|Hone].
    + exists (newInvalidError rollback "cannot rollback an undeployed config").
      split; [|done].
      apply (Create_stops_at_switch lib r ctx obj createValidation namespace rollback from);
        [done | done |].
      unfold checkLatestVersion. by rewrite Hzero.
    + exists (newInvalidError rollback
                ("no previous deployment exists for "
                 +:+ quote lib (LabelForDeploymentConfig lib from))).
      split; [|done].
      apply (Create_stops_at_switch lib r ctx obj createValidation namespace rollback from);
        [done | done |].
      unfold checkLatestVersion. by rewrite Hone.
  - intros H0 H1 target name.
    destruct (Create_after_switch lib r ctx obj createValidation namespace rollback from)
      as [Hcalls Hresult]; [done | done | done | done | lia |].
    change (targetRevision from rollback) with target in Hcalls, Hresult.
    fold name in Hcalls, Hresult.
    split; [done|]. split.
    + intros err Hrn. by rewrite Hresult, Hrn.
    + intros targetDeployment to toInternal fromInternal Hrn Hdecode Hto Hfrom.
      by rewrite Hresult, Hrn, Hdecode, Hto, Hfrom.
Qed.

(** ** Failures before the switch *)

(** C9, as the code has it. When the read of the named deployment config
    fails, [Create] fails with an error of the invalid kind, the kind of
    every other failed precondition and not a not-found kind; it carries one
    field error, on the field [name], with the requested name as value and a
    reason that quotes the name and embeds the text of the lookup error. *)
Theorem Create_config_lookup_fails {Σ : Payload} (lib : Library Σ) (r : REST Σ)
    (ctx : Context) (obj : Object) (createValidation : Object → option error)
    (namespace : string) (rollback : DeploymentConfigRollback) (err : error) :
  reachesStore lib ctx obj createValidation namespace rollback →
  dn r namespace (Rollback_Name rollback) = inr err →
  let reason :=
    "cannot get deployment config " +:+ quote lib (Rollback_Name rollback)
    +:+ ": " +:+ Error lib err in
  ∃ failure,
    Create lib r ctx obj createValidation = (callsUpToConfig namespace rollback, Fails failure) ∧
    failure = newInvalidError rollback reason ∧
    ReasonForError failure = StatusReasonInvalid ∧
    causes failure = [field_Invalid "name" (Rollback_Name rollback) reason].
Proof.
  intros Hreach Hget reason. exists (newInvalidError rollback reason).
  split; [|done]. by run_to_config Hreach Hget.
Qed.

(** C10. Without a namespace in the request context, [Create] fails at once
    with the bad request "namespace parameter required.": nothing is
    validated and no store is read. *)
Theorem Create_namespace_required {Σ : Payload} (lib : Library Σ) (r : REST Σ)
    (ctx : Context) (obj : Object) (createValidation : Object → option error) :
  NamespaceFrom ctx = None →
  Create lib r ctx obj createValidation
  = ([], Fails (NewBadRequest "namespace parameter required.")) ∧
  ReasonForError (NewBadRequest "namespace parameter required.") = StatusReasonBadRequest.
Proof.
  intros Hns. split; [|done]. unfold Create. by rewrite Hns.
Qed.

(** ** Annotations *)

(** C5, as the code has it. The annotations of the generated document are
    those of the config read from the store, updated in place before the
    generation: a nil map with nothing to write stays nil (no table is
    created for it), and in every other case the result is the allocated
    table in which each updated key has its new value and every other key
    keeps the value it had; the order in which the updated entries are
    visited does not matter. The config so updated is what is converted and
    handed to the generator, and its annotations are those of the result
    whenever the conversion and the generator keep the annotations of their
    source. *)
Theorem Create_updates_annotations {Σ : Payload} (lib : Library Σ) (r : REST Σ)
    (ctx : Context) (obj : Object) (createValidation : Object → option error)
    (namespace : string) (rollback : DeploymentConfigRollback) (from : DeploymentConfig Σ)
    (targetDeployment : ReplicationController Σ)
    (to toInternal fromInternal : DeploymentConfig Σ) (merged : GoMap) :
  reachesStore lib ctx obj createValidation namespace rollback →
  dn r namespace (Rollback_Name rollback) = inl from →
  Status_LatestVersion from ≠ 0 →
  Status_LatestVersion from ≠ 1 →
  Status_LatestVersion from ≠ Revision (Rollback_Spec rollback) →
  rn r namespace
    (DeploymentNameForConfigVersion lib (Name from) (targetRevision from rollback))
  = inl targetDeployment →
  DecodeDeploymentConfig lib targetDeployment = inl to →
  Convert lib to = inl toInternal →
  merged = (if isNil (Annotations from) && (len (UpdatedAnnotations rollback) =? 0)%nat
            then nilMap
            else mkMap (entries (UpdatedAnnotations rollback) ∪ entries (Annotations from))) →
  Convert lib (setAnnotations from merged) = inl fromInternal →
  (∀ order, order ≡ₚ map_to_list (entries (UpdatedAnnotations rollback)) →
     updateAnnotationsIn order (Annotations from) (UpdatedAnnotations rollback) = Some merged) ∧
  (∀ key,
     entries merged !! key
     = match entries (UpdatedAnnotations rollback) !! key with
       | Some value => Some value
       | None => entries (Annotations from) !! key
       end) ∧
  result (Create lib r ctx obj createValidation)
  = match GenerateRollback (generator r) fromInternal toInternal (Rollback_Spec rollback) with
    | inr err => Fails err
    | inl config => Returns config
    end ∧
  (Annotations fromInternal = merged →
   (∀ source target spec config,
      GenerateRollback (generator r) source target spec = inl config →
      Annotations config = Annotations source) →
   ∀ config,
     result (Create lib r ctx obj createValidation) = Returns config →
     Annotations config = merged).
Proof.
  intros Hreach Hget H0 H1 Hrev Hrn Hdecode Hto Hmerged Hfrom.
  assert (result (Create lib r ctx obj createValidation)
          = match GenerateRollback (generator r) fromInternal toInternal
                    (Rollback_Spec rollback) with
            | inr err => Fails err
            | inl config => Returns config
            end) as Hresult.
  { destruct (Create_after_switch lib r ctx obj createValidation namespace rollback from)
      as [_ Hresult]; [done..|].
    cbv zeta in Hresult.
    change (merged = updatedAnnotations (Annotations from) (UpdatedAnnotations rollback))
      in Hmerged.
    by rewrite Hresult, Hrn, Hdecode, Hto, <-Hmerged, Hfrom. }
  change (merged = updatedAnnotations (Annotations from) (UpdatedAnnotations rollback))
    in Hmerged.
  split; [|split; [|split; [done|]]].
  - intros order Hperm. rewrite Hmerged. by apply updateAnnotationsIn_spec.
  - intros key. rewrite Hmerged. unfold updatedAnnotations.
    destruct (isNil (Annotations from) && (len (UpdatedAnnotations rollback) =? 0)%nat)
      eqn:Hnil; cbn [entries].
    + apply andb_prop in Hnil as [Hnil Hlen].
      apply Nat.eqb_eq, len_zero in Hlen. rewrite Hlen, lookup_empty.
      destruct (Annotations from); [done | discriminate].
    + rewrite lookup_union.
      destruct (entries (UpdatedAnnotations rollback) !! key),
        (entries (Annotations from) !! key); done.
  - intros Hconvert Hkeeps config Hreturns. rewrite Hresult in Hreturns.
    destruct (GenerateRollback (generator r) fromInternal toInternal (Rollback_Spec rollback))
      as [generated|err] eqn:Hgenerate; [|discriminate].
    injection Hreturns as <-. rewrite <-Hconvert. by eapply Hkeeps.
Qed.

(** ** The generator *)

(** C6. Merging with every gate open yields a document whose template,
    replication meta, strategy and triggers are those of the target, under
    the name, the namespace and the latest version of the current config;
    the latest version is that of the current config whatever the mask, and
    the generator does just this for a request with its four flags set. *)
Theorem merge_all_true {Σ : Payload} (current target : DeploymentConfig Σ)
    (annotationOverrides : gmap string string) (revision : Z) :
  let merged := merge current target (Mask.all true) annotationOverrides in
  templateSpec (Spec merged) = templateSpec (Spec target) ∧
  replicationMeta (Spec merged) = replicationMeta (Spec target) ∧
  strategy (Spec merged) = strategy (Spec target) ∧
  triggers (Spec merged) = triggers (Spec target) ∧
  Name merged = Name current ∧
  Namespace merged = Namespace current ∧
  Status_LatestVersion merged = Status_LatestVersion current ∧
  (∀ mask,
     Status_LatestVersion (merge current target mask annotationOverrides)
     = Status_LatestVersion current) ∧
  ∃ config,
    GenerateRollback (NewRollbackGenerator Σ) current target
      {| Revision := revision;
         IncludeTemplate := true;
         IncludeReplicationMeta := true;
         IncludeStrategy := true;
         IncludeTriggers := true |}
    = inl config ∧
    Spec config = Spec target ∧
    Name config = Name current ∧
    Namespace config = Namespace current ∧
    Status_LatestVersion config = Status_LatestVersion current.
Proof.
  cbv zeta. do 7 (split; [reflexivity|]). split; [done|].
  eexists. split; [reflexivity|].
  destruct target as [? ? ? [? ? ? ?] ?]. done.
Qed.

(** C7. Merging with every gate closed reproduces the four structural
    fields of the current config, and the generator returns that document
    rather than an error; with the template gate alone open, the result has
    the template of the target and the replication meta, strategy and
    triggers of the current config. *)
Theorem merge_all_false_and_template_only {Σ : Payload}
    (current target : DeploymentConfig Σ)
    (annotationOverrides : gmap string string) (revision : Z) :
  Spec (merge current target (Mask.all false) annotationOverrides) = Spec current ∧
  (∃ config,
     GenerateRollback (NewRollbackGenerator Σ) current target
       {| Revision := revision;
          IncludeTemplate := false;
          IncludeReplicationMeta := false;
          IncludeStrategy := false;
          IncludeTriggers := false |}
     = inl config ∧
     Spec config = Spec current) ∧
  let mask :=
    {| Mask.template := true;
       Mask.replicationMeta := false;
       Mask.strategy := false;
       Mask.triggers := false |} in
  let merged := merge current target mask annotationOverrides in
  templateSpec (Spec merged) = templateSpec (Spec target) ∧
  replicationMeta (Spec merged) = replicationMeta (Spec current) ∧
  strategy (Spec merged) = strategy (Spec current) ∧
  triggers (Spec merged) = triggers (Spec current).
Proof.
  split; [|split].
  - destruct current as [? ? ? [? ? ? ?] ?]. done.
  - eexists. split; [reflexivity|].
    destruct current as [? ? ? [? ? ? ?] ?]. done.
  - cbv zeta. done.
Qed.

(** ** The endpoint at work on the example deployment *)

Lemma example_reaches_store (name : string) (revision : Z) (updated : GoMap) :
  name ≠ EmptyString → 0 ≤ revision →
  reachesStore Example.library Example.inNamespace
    (RollbackObject (Example.request name revision updated)) Example.accept
    "prod" (Example.request name revision updated).
Proof.
  intros Hname Hrevision. repeat split.
  unfold Example.library, Example.validate; cbn.
  destruct (decide (name = EmptyString)) as [|_]; [done|].
  apply Z.ltb_ge in Hrevision. by rewrite Hrevision.
Defined.

Lemma Create_target_revision_witness :
  targetRevision (Example.configAt 5 nilMap) (Example.request "frontend" 0 nilMap) = 4 ∧
  calls (Create Example.library (Example.rest 5 nilMap [3; 4])
           Example.inNamespace
           (RollbackObject (Example.request "frontend" 0 nilMap)) Example.accept)
  = [ CallValidateDeploymentConfigRollback "frontend";
      CallCreateValidation;
      CallGetDeploymentConfig "prod" "frontend";
      CallGetReplicationController "prod" "frontend-4" ].
Proof.
  destruct (Create_target_revision Example.library (Example.rest 5 nilMap [3; 4])
              Example.inNamespace
              (RollbackObject (Example.request "frontend" 0 nilMap)) Example.accept
              "prod" (Example.request "frontend" 0 nilMap) (Example.configAt 5 nilMap))
    as (_ & Hprevious & Hcalls).
  - by apply example_reaches_store.
  - reflexivity.
  - unfold int64_range, int64_min, int64_max. cbn. lia.
  - cbn. lia.
  - cbn. lia.
  - split.
    + rewrite Hprevious; [reflexivity | cbn; lia].
    + rewrite Hcalls. reflexivity.
Defined.

Lemma Create_undeployed_witness :
  Create Example.library (Example.rest 0 nilMap [])
    Example.inNamespace
    (RollbackObject (Example.request "frontend" 3 nilMap)) Example.accept
  = ([ CallValidateDeploymentConfigRollback "frontend";
       CallCreateValidation;
       CallGetDeploymentConfig "prod" "frontend" ],
     Fails (NewInvalid (apps_Kind "DeploymentConfigRollback") "frontend"
              [field_Invalid "name" "frontend" "cannot rollback an undeployed config"])).
Proof.
  apply (Create_undeployed Example.library (Example.rest 0 nilMap [])
           Example.inNamespace
           (RollbackObject (Example.request "frontend" 3 nilMap)) Example.accept
           "prod" (Example.request "frontend" 3 nilMap) (Example.configAt 0 nilMap)).
  - by apply example_reaches_store.
  - reflexivity.
  - reflexivity.
Defined.

Lemma Create_no_previous_deployment_witness :
  Create Example.library (Example.rest 1 nilMap [1])
    Example.inNamespace
    (RollbackObject (Example.request "frontend" 1 nilMap)) Example.accept
  = ([ CallValidateDeploymentConfigRollback "frontend";
       CallCreateValidation;
       CallGetDeploymentConfig "prod" "frontend" ],
     Fails (NewInvalid (apps_Kind "DeploymentConfigRollback") "frontend"
              [field_Invalid "name" "frontend"
                 ("no previous deployment exists for " +:+ Example.quoted "prod/frontend")])).
Proof.
  apply (Create_no_previous_deployment Example.library (Example.rest 1 nilMap [1])
           Example.inNamespace
           (RollbackObject (Example.request "frontend" 1 nilMap)) Example.accept
           "prod" (Example.request "frontend" 1 nilMap) (Example.configAt 1 nilMap)).
  - by apply example_reaches_store.
  - reflexivity.
  - reflexivity.
Defined.

Lemma Create_already_latest_witness :
  Create Example.library (Example.rest 3 nilMap [1; 2; 3])
    Example.inNamespace
    (RollbackObject (Example.request "frontend" 3 nilMap)) Example.accept
  = ([ CallValidateDeploymentConfigRollback "frontend";
       CallCreateValidation;
       CallGetDeploymentConfig "prod" "frontend" ],
     Fails (NewInvalid (apps_Kind "DeploymentConfigRollback") "frontend"
              [field_Invalid "name" "frontend" "version 3 is already the latest"])).
Proof.
  apply (Create_already_latest Example.library (Example.rest 3 nilMap [1; 2; 3])
           Example.inNamespace
           (RollbackObject (Example.request "frontend" 3 nilMap)) Example.accept
           "prod" (Example.request "frontend" 3 nilMap) (Example.configAt 3 nilMap)).
  - by apply example_reaches_store.
  - reflexivity.
  - cbn. lia.
  - reflexivity.
Defined.

Lemma Create_revision_above_latest_witness :
  calls (Create Example.library (Example.rest 3 nilMap [1; 2; 3])
           Example.inNamespace
           (RollbackObject (Example.request "frontend" 7 nilMap)) Example.accept)
  = [ CallValidateDeploymentConfigRollback "frontend";
      CallCreateValidation;
      CallGetDeploymentConfig "prod" "frontend";
      CallGetReplicationController "prod" "frontend-7" ] ∧
  result (Create Example.library (Example.rest 3 nilMap [1; 2; 3])
            Example.inNamespace
            (RollbackObject (Example.request "frontend" 7 nilMap)) Example.accept)
  = Fails (newInvalidError (Example.request "frontend" 7 nilMap)
             (Example.errorText (NewNotFound "replicationcontrollers" "frontend-7"))).
Proof.
  destruct (Create_revision_above_latest Example.library (Example.rest 3 nilMap [1; 2; 3])
              Example.inNamespace
              (RollbackObject (Example.request "frontend" 7 nilMap)) Example.accept
              "prod" (Example.request "frontend" 7 nilMap) (Example.configAt 3 nilMap))
    as (_ & Hlookup).
  - by apply example_reaches_store.
  - reflexivity.
  - cbn. lia.
  - cbn. lia.
  - destruct Hlookup as (Hcalls & Hmissing & _); [cbn; lia | cbn; lia |].
    split; [exact Hcalls|].
    apply Hmissing. reflexivity.
Defined.

(** With the latest version at 3, a request for revision 7 is not turned
    down: the controller of revision 7 is looked up and, as the store holds
    one, the rollback to it is generated. *)
Lemma Create_revision_above_latest_accepted :
  Status_LatestVersion (Example.configAt 3 nilMap)
  < Revision (Rollback_Spec (Example.request "frontend" 7 nilMap)) ∧
  Create Example.library (Example.rest 3 nilMap [1; 2; 3; 7])
    Example.inNamespace
    (RollbackObject (Example.request "frontend" 7 nilMap)) Example.accept
  = ([ CallValidateDeploymentConfigRollback "frontend";
       CallCreateValidation;
       CallGetDeploymentConfig "prod" "frontend";
       CallGetReplicationController "prod" "frontend-7" ],
     Returns
       {| Name := "frontend";
          Namespace := "prod";
          Annotations := nilMap;
          Spec := Build_DeploymentConfigSpec Example.payload
                    "frontend:v7" 3 "Rolling" ["ConfigChange"];
          Status_LatestVersion := 3 |}).
Proof. split; [cbn; lia | vm_compute; reflexivity]. Qed.

Lemma Create_config_lookup_fails_witness :
  Create Example.library (Example.rest 3 nilMap [1; 2; 3])
    Example.inNamespace
    (RollbackObject (Example.request "backend" 0 nilMap)) Example.accept
  = ([ CallValidateDeploymentConfigRollback "backend";
       CallCreateValidation;
       CallGetDeploymentConfig "prod" "backend" ],
     Fails (NewInvalid (apps_Kind "DeploymentConfigRollback") "backend"
              [field_Invalid "name" "backend"
                 ("cannot get deployment config " +:+ Example.quoted "backend" +:+ ": "
                  +:+ Example.errorText
                        (NewNotFound "deploymentconfigs.apps.openshift.io" "backend"))])).
Proof.
  destruct (Create_config_lookup_fails Example.library (Example.rest 3 nilMap [1; 2; 3])
              Example.inNamespace
              (RollbackObject (Example.request "backend" 0 nilMap)) Example.accept
              "prod" (Example.request "backend" 0 nilMap)
              (NewNotFound "deploymentconfigs.apps.openshift.io" "backend"))
    as (failure & Hrun & -> & _).
  - by apply example_reaches_store.
  - reflexivity.
  - exact Hrun.
Defined.

(** The store answers the read of a config it does not hold with a
    not-found error; what [Create] returns is an invalid error, of the same
    kind as the one it returns for an undeployed config. *)
Lemma Create_config_lookup_fails_as_invalid :
  ∃ err failure,
    dn (Example.rest 3 nilMap [1; 2; 3]) "prod" "backend" = inr err ∧
    ReasonForError err = StatusReasonNotFound ∧
    result (Create Example.library (Example.rest 3 nilMap [1; 2; 3])
              Example.inNamespace
              (RollbackObject (Example.request "backend" 0 nilMap)) Example.accept)
    = Fails failure ∧
    ReasonForError failure = StatusReasonInvalid ∧
    ReasonForError failure ≠ StatusReasonNotFound ∧
    ReasonForError failure
    = ReasonForError (newInvalidError (Example.request "backend" 0 nilMap)
                        "cannot rollback an undeployed config").
Proof.
  eexists. eexists. split; [reflexivity|]. split; [reflexivity|].
  split; [vm_compute; reflexivity|]. split; [reflexivity|]. split; [discriminate|reflexivity].
Qed.

Lemma Create_namespace_required_witness :
  Create Example.library (Example.rest 3 nilMap [1; 2; 3])
    Example.noNamespace
    (RollbackObject (Example.request "frontend" 0 nilMap)) Example.accept
  = ([], Fails (NewBadRequest "namespace parameter required.")).
Proof.
  apply (Create_namespace_required Example.library (Example.rest 3 nilMap [1; 2; 3])
           Example.noNamespace
           (RollbackObject (Example.request "frontend" 0 nilMap)) Example.accept).
  reflexivity.
Defined.

Lemma Create_updates_annotations_witness :
  updateAnnotationsIn [("b", "3"); ("a", "2")]
    (mkMap {["a" := "1"]}) (mkMap {["a" := "2"; "b" := "3"]})
  = Some (mkMap {["a" := "2"; "b" := "3"]}) ∧
  result (Create Example.library (Example.rest 2 (mkMap {["a" := "1"]}) [1; 2])
            Example.inNamespace
            (RollbackObject (Example.request "frontend" 0 (mkMap {["a" := "2"; "b" := "3"]})))
            Example.accept)
  = Returns
      {| Name := "frontend";
         Namespace := "prod";
         Annotations := mkMap {["a" := "2"; "b" := "3"]};
         Spec := Build_DeploymentConfigSpec Example.payload
                   "frontend:v1" 2 "Rolling" ["ConfigChange"];
         Status_LatestVersion := 2 |}.
Proof.
  destruct (Create_updates_annotations Example.library
              (Example.rest 2 (mkMap {["a" := "1"]}) [1; 2])
              Example.inNamespace
              (RollbackObject (Example.request "frontend" 0 (mkMap {["a" := "2"; "b" := "3"]})))
              Example.accept
              "prod" (Example.request "frontend" 0 (mkMap {["a" := "2"; "b" := "3"]}))
              (Example.configAt 2 (mkMap {["a" := "1"]}))
              1 (Example.configAt 1 nilMap) (Example.configAt 1 nilMap)
              (Example.configAt 2 (mkMap {["a" := "2"; "b" := "3"]}))
              (mkMap {["a" := "2"; "b" := "3"]}))
    as (Horder & _ & Hresult & _).
  - by apply example_reaches_store.
  - reflexivity.
  - cbn. lia.
  - cbn. lia.
  - cbn. lia.
  - vm_compute. reflexivity.
  - reflexivity.
  - reflexivity.
  - vm_compute. reflexivity.
  - vm_compute. reflexivity.
  - split.
    + apply Horder. vm_compute. apply perm_swap.
    + rewrite Hresult. vm_compute. reflexivity.
Defined.

(** A config without annotations that is rolled back without annotation
    updates keeps its nil map: no empty table is created for it, neither for
    a nil nor for an empty map of updates. *)
Lemma Create_keeps_nil_annotations :
  updateAnnotations nilMap nilMap = Some nilMap ∧
  updateAnnotations nilMap (mkMap ∅) = Some nilMap ∧
  nilMap ≠ mkMap ∅ ∧
  ∃ config,
    result (Create Example.library (Example.rest 2 nilMap [1; 2])
              Example.inNamespace
              (RollbackObject (Example.request "frontend" 0 (mkMap ∅))) Example.accept)
    = Returns config ∧
    Annotations config = nilMap.
Proof.
  split; [vm_compute; reflexivity|]. split; [vm_compute; reflexivity|].
  split; [discriminate|]. eexists. split; [vm_compute; reflexivity | reflexivity].
Qed.

(** * The runs of the endpoint, case by case *)

Lemma run_calls_result {A} (m : run A) : m = (calls m, result m).
Proof. by destruct m. Qed.

Lemma checkLatestVersion_cases {Σ : Payload} (lib : Library Σ)
    (from : DeploymentConfig Σ) (rollback : DeploymentConfigRollback) :
  (∃ reason, checkLatestVersion lib from rollback
             = failWith (newInvalidError rollback reason)) ∨
  (checkLatestVersion lib from rollback = unit_run () ∧
   Status_LatestVersion from ≠ 0 ∧
   Status_LatestVersion from ≠ 1 ∧
   Status_LatestVersion from ≠ Revision (Rollback_Spec rollback)).
Proof.
  unfold checkLatestVersion.
  destruct (Status_LatestVersion from =? 0) eqn:H0; [left; by eexists|].
  destruct (Status_LatestVersion from =? 1) eqn:H1; [left; by eexists|].
  destruct (Status_LatestVersion from =? Revision (Rollback_Spec rollback)) eqn:Hrev;
    [left; by eexists|].
  right. apply Z.eqb_neq in H0, H1, Hrev. done.
Qed.

(** Every run of [Create] follows one of the rules of [CreateRun]. *)
Lemma Create_run {Σ : Payload} (lib : Library Σ) (r : REST Σ)
    (ctx : Context) (obj : Object) (createValidation : Object → option error) :
  CreateRun lib r ctx obj createValidation
    (calls (Create lib r ctx obj createValidation))
    (result (Create lib r ctx obj createValidation)).
Proof.
  destruct (NamespaceFrom ctx) as [namespace|] eqn:Hns.
  2: { unfold Create. rewrite Hns. by apply run_no_namespace. }
  destruct obj as [rollback|goSyntax] eqn:Hobj.
  2: { unfold Create. rewrite Hns. by eapply run_not_a_rollback. }
  destruct (ValidateDeploymentConfigRollback lib rollback) as [|fieldError errs] eqn:Hvalid.
  2: { unfold Create. rewrite Hns. cbn. rewrite Hvalid. cbn. rewrite <-Hvalid.
       eapply run_invalid_request; [done | done |]. by rewrite Hvalid. }
  destruct (createValidation (RollbackObject rollback)) as [err|] eqn:Hcv.
  { unfold Create. rewrite Hns. cbn. rewrite Hvalid. cbn. rewrite Hcv. cbn.
    by eapply run_refused. }
  assert (reachesStore lib ctx (RollbackObject rollback) createValidation namespace rollback)
    as Hreach by done.
  destruct (dn r namespace (Rollback_Name rollback)) as [from|err] eqn:Hget.
  2: { unfold Create. rewrite Hns. cbn. rewrite Hvalid. cbn. rewrite Hcv. cbn.
       rewrite Hget. cbn. by eapply run_config_not_read. }
  destruct (checkLatestVersion_cases lib from rollback)
    as [[reason Hswitch]|(_ & H0 & H1 & Hrev)].
  { rewrite (Create_stops_at_switch lib r ctx (RollbackObject rollback) createValidation
               namespace rollback from (newInvalidError rollback reason)) by done.
    by eapply run_stopped_by_switch. }
  assert (passesSwitch lib r ctx (RollbackObject rollback) createValidation
            namespace rollback from) as Hpass by done.
  destruct (Create_after_switch lib r ctx (RollbackObject rollback) createValidation
              namespace rollback from) as [Hcalls Hresult]; [done..|].
  cbv zeta in Hcalls, Hresult. rewrite Hcalls, Hresult.
  fold (controllerName lib from rollback).
  fold (callsUpToController lib namespace rollback from).
  fold (updatedSource from rollback).
  destruct (rn r namespace (controllerName lib from rollback))
    as [targetDeployment|err] eqn:Hrn.
  2: { by eapply run_controller_not_read. }
  destruct (DecodeDeploymentConfig lib targetDeployment) as [to|err] eqn:Hdecode.
  2: { by eapply run_not_decoded. }
  destruct (Convert lib to) as [toInternal|err] eqn:Hto.
  2: { by eapply run_target_not_converted. }
  assert (obtainsTarget lib r ctx (RollbackObject rollback) createValidation
            namespace rollback from to toInternal) as Htarget.
  { split; [done|]. by exists targetDeployment. }
  destruct (Convert lib (updatedSource from rollback)) as [fromInternal|err] eqn:Hfrom.
  2: { by eapply run_source_not_converted. }
  destruct (GenerateRollback (generator r) fromInternal toInternal (Rollback_Spec rollback))
    as [config|err] eqn:Hgenerate.
  - by eapply run_generated.
  - by eapply run_not_generated.
Qed.

(** The same, read forwards: the run of a request that got past the switch. *)
Lemma Create_past_switch {Σ : Payload} (lib : Library Σ) (r : REST Σ)
    (ctx : Context) (obj : Object) (createValidation : Object → option error)
    (namespace : string) (rollback : DeploymentConfigRollback) (from : DeploymentConfig Σ) :
  passesSwitch lib r ctx obj createValidation namespace rollback from →
  Create lib r ctx obj createValidation
  = (callsUpToController lib namespace rollback from,
     match rn r namespace (controllerName lib from rollback) with
     | inr err => Fails (newInvalidError rollback (Error lib err))
     | inl targetDeployment =>
       match DecodeDeploymentConfig lib targetDeployment with
       | inr err =>
           Fails (newInvalidError rollback
                    ("couldn't decode deployment config from deployment: " +:+ Error lib err))
       | inl to =>
         match Convert lib to with
         | inr err => Fails (NewInternalError err)
         | inl toInternal =>
           match Convert lib (updatedSource from rollback) with
           | inr err => Fails (NewInternalError err)
           | inl fromInternal =>
             match GenerateRollback (generator r) fromInternal toInternal
                     (Rollback_Spec rollback) with
             | inr err => Fails err
             | inl config => Returns config
             end
           end
         end
       end
     end).
Proof.
  intros (Hreach & Hget & H0 & H1 & Hrev).
  destruct (Create_after_switch lib r ctx obj createValidation namespace rollback from)
    as [Hcalls Hresult]; [done..|].
  rewrite (run_calls_result (Create lib r ctx obj createValidation)).
  by rewrite Hcalls, Hresult.
Qed.

Lemma Create_with_target {Σ : Payload} (lib : Library Σ) (r : REST Σ)
    (ctx : Context) (obj : Object) (createValidation : Object → option error)
    (namespace : string) (rollback : DeploymentConfigRollback)
    (from to toInternal : DeploymentConfig Σ) :
  obtainsTarget lib r ctx obj createValidation namespace rollback from to toInternal →
  Create lib r ctx obj createValidation
  = (callsUpToController lib namespace rollback from,
     match Convert lib (updatedSource from rollback) with
     | inr err => Fails (NewInternalError err)
     | inl fromInternal =>
       match GenerateRollback (generator r) fromInternal toInternal
               (Rollback_Spec rollback) with
       | inr err => Fails err
       | inl config => Returns config
       end
     end).
Proof.
  intros (Hpass & targetDeployment & Hrn & Hdecode & Hto).
  rewrite (Create_past_switch lib r ctx obj createValidation namespace rollback from) by done.
  by rewrite Hrn, Hdecode, Hto.
Qed.

(** * Further properties of the endpoint *)

(** ** Failures of the validations *)

(** X1. When the validation of the rollback reports field errors, [Create]
    fails with an invalid error for the kind DeploymentConfigRollback and
    the name of the request that carries exactly those errors; the admission
    function is not consulted and no store is read. *)
Theorem Create_reports_validation_errors {Σ : Payload} (lib : Library Σ) (r : REST Σ)
    (ctx : Context) (createValidation : Object → option error)
    (namespace : string) (rollback : DeploymentConfigRollback) :
  NamespaceFrom ctx = Some namespace →
  ValidateDeploymentConfigRollback lib rollback ≠ [] →
  Create lib r ctx (RollbackObject rollback) createValidation
  = ([CallValidateDeploymentConfigRollback (Rollback_Name rollback)],
     Fails (NewInvalid (apps_Kind "DeploymentConfigRollback") (Rollback_Name rollback)
              (ValidateDeploymentConfigRollback lib rollback))).
Proof.
  intros Hns Hvalid. unfold Create. rewrite Hns. cbn.
  by destruct (ValidateDeploymentConfigRollback lib rollback).
Qed.

(** X2. When the rollback is valid but the admission function
    [createValidation] turns the object down, [Create] returns that very
    error, unwrapped, and no store is read. *)
Theorem Create_returns_admission_error {Σ : Payload} (lib : Library Σ) (r : REST Σ)
    (ctx : Context) (createValidation : Object → option error)
    (namespace : string) (rollback : DeploymentConfigRollback) (err : error) :
  NamespaceFrom ctx = Some namespace →
  ValidateDeploymentConfigRollback lib rollback = [] →
  createValidation (RollbackObject rollback) = Some err →
  Create lib r ctx (RollbackObject rollback) createValidation
  = ([CallValidateDeploymentConfigRollback (Rollback_Name rollback); CallCreateValidation],
     Fails err).
Proof.
  intros Hns Hvalid Hcv. unfold Create. rewrite Hns. cbn. rewrite Hvalid. cbn.
  by rewrite Hcv.
Qed.

(** ** Failures after the switch *)

(** X3. Past the switch, when the replication controller of the target
    revision cannot be read, [Create] fails with an invalid error on the
    field [name] whose reason is the text of the lookup error, unchanged;
    nothing is decoded or generated. *)
Theorem Create_controller_not_read {Σ : Payload} (lib : Library Σ) (r : REST Σ)
    (ctx : Context) (obj : Object) (createValidation : Object → option error)
    (namespace : string) (rollback : DeploymentConfigRollback) (from : DeploymentConfig Σ)
    (err : error) :
  passesSwitch lib r ctx obj createValidation namespace rollback from →
  rn r namespace (controllerName lib from rollback) = inr err →
  Create lib r ctx obj createValidation
  = (callsUpToController lib namespace rollback from,
     Fails (NewInvalid (apps_Kind "DeploymentConfigRollback") (Rollback_Name rollback)
              [field_Invalid "name" (Rollback_Name rollback) (Error lib err)])).
Proof.
  intros Hpass Hrn.
  rewrite (Create_past_switch lib r ctx obj createValidation namespace rollback from) by done.
  by rewrite Hrn.
Qed.

(** X4. Past the switch, when the replication controller is found but holds
    no decodable config, [Create] fails with an invalid error on the field
    [name] whose reason is "couldn't decode deployment config from
    deployment: " followed by the text of the decoding error. *)
Theorem Create_controller_not_decoded {Σ : Payload} (lib : Library Σ) (r : REST Σ)
    (ctx : Context) (obj : Object) (createValidation : Object → option error)
    (namespace : string) (rollback : DeploymentConfigRollback) (from : DeploymentConfig Σ)
    (targetDeployment : ReplicationController Σ) (err : error) :
  passesSwitch lib r ctx obj createValidation namespace rollback from →
  rn r namespace (controllerName lib from rollback) = inl targetDeployment →
  DecodeDeploymentConfig lib targetDeployment = inr err →
  Create lib r ctx obj createValidation
  = (callsUpToController lib namespace rollback from,
     Fails (NewInvalid (apps_Kind "DeploymentConfigRollback") (Rollback_Name rollback)
              [field_Invalid "name" (Rollback_Name rollback)
                 ("couldn't decode deployment config from deployment: " +:+ Error lib err)])).
Proof.
  intros Hpass Hrn Hdecode.
  rewrite (Create_past_switch lib r ctx obj createValidation namespace rollback from) by done.
  by rewrite Hrn, Hdecode.
Qed.

(** X5. A failed conversion is an internal error that wraps the conversion
    error, not an invalid request: such is the outcome when the decoded
    target config does not convert, and when the target converts but the
    source config, with its annotations updated, does not. *)
Theorem Create_conversion_fails {Σ : Payload} (lib : Library Σ) (r : REST Σ)
    (ctx : Context) (obj : Object) (createValidation : Object → option error)
    (namespace : string) (rollback : DeploymentConfigRollback) (from : DeploymentConfig Σ)
    (targetDeployment : ReplicationController Σ) (to : DeploymentConfig Σ) :
  passesSwitch lib r ctx obj createValidation namespace rollback from →
  rn r namespace (controllerName lib from rollback) = inl targetDeployment →
  DecodeDeploymentConfig lib targetDeployment = inl to →
  (∀ err,
     Convert lib to = inr err →
     Create lib r ctx obj createValidation
     = (callsUpToController lib namespace rollback from, Fails (NewInternalError err))) ∧
  (∀ toInternal err,
     Convert lib to = inl toInternal →
     Convert lib (updatedSource from rollback) = inr err →
     Create lib r ctx obj createValidation
     = (callsUpToController lib namespace rollback from, Fails (NewInternalError err))).
Proof.
  intros Hpass Hrn Hdecode.
  rewrite (Create_past_switch lib r ctx obj createValidation namespace rollback from) by done.
  rewrite Hrn, Hdecode. split.
  - intros err Hto. by rewrite Hto.
  - intros toInternal err Hto Hfrom. by rewrite Hto, Hfrom.
Qed.

(** X6. Once both configs are converted the outcome is the generator's, on
    the converted source (annotations updated), the converted target and the
    spec of the request: an error of the generator is returned as it is. *)
Theorem Create_returns_generator_error {Σ : Payload} (lib : Library Σ) (r : REST Σ)
    (ctx : Context) (obj : Object) (createValidation : Object → option error)
    (namespace : string) (rollback : DeploymentConfigRollback)
    (from to toInternal fromInternal : DeploymentConfig Σ) (err : error) :
  obtainsTarget lib r ctx obj createValidation namespace rollback from to toInternal →
  Convert lib (updatedSource from rollback) = inl fromInternal →
  GenerateRollback (generator r) fromInternal toInternal (Rollback_Spec rollback) = inr err →
  Create lib r ctx obj createValidation
  = (callsUpToController lib namespace rollback from, Fails err).
Proof.
  intros Htarget Hfrom Hgenerate.
  rewrite (Create_with_target lib r ctx obj createValidation namespace rollback
             from to toInternal) by done.
  by rewrite Hfrom, Hgenerate.
Qed.

(** ** The update of the annotations *)

(** X7. A request without updated annotations (a nil or an empty map) leaves
    the annotations of the config exactly as they were: a nil map stays nil
    and a table keeps its entries. *)
Theorem updateAnnotations_without_updates (annotations updated : GoMap) :
  len updated = 0%nat →
  updateAnnotations annotations updated = Some annotations.
Proof.
  intros Hlen. rewrite updateAnnotations_spec. unfold updatedAnnotations.
  rewrite Hlen. apply len_zero in Hlen. rewrite Hlen.
  destruct annotations as [|t]; cbn; [done|].
  by rewrite (left_id_L ∅ (∪)).
Qed.

(** X8. Updating the annotations is idempotent: applying the same updates to
    the updated annotations changes nothing. *)
Theorem updateAnnotations_idempotent (annotations updated once : GoMap) :
  updateAnnotations annotations updated = Some once →
  updateAnnotations once updated = Some once.
Proof.
  rewrite !updateAnnotations_spec. intros [= <-]. f_equal.
  unfold updatedAnnotations.
  destruct (isNil annotations && (len updated =? 0)%nat) eqn:Hnil.
  - apply andb_prop in Hnil as [_ Hlen]. cbn. by rewrite Hlen.
  - cbn. by rewrite (assoc_L (∪)), (idemp_L (∪)).
Qed.

(** ** The target revision *)

(** X9. For a config whose latest version is not negative, a request that
    gets past the switch is resolved to a revision that is at least 1 and is
    not the latest version; it is an [int64] when the requested revision and
    the latest version are. *)
Theorem targetRevision_bounds {Σ : Payload} (from : DeploymentConfig Σ)
    (rollback : DeploymentConfigRollback) :
  0 ≤ Status_LatestVersion from →
  int64_range (Status_LatestVersion from) →
  int64_range (Revision (Rollback_Spec rollback)) →
  Status_LatestVersion from ≠ 0 →
  Status_LatestVersion from ≠ 1 →
  Status_LatestVersion from ≠ Revision (Rollback_Spec rollback) →
  1 ≤ targetRevision from rollback ∧
  targetRevision from rollback ≠ Status_LatestVersion from ∧
  int64_range (targetRevision from rollback).
Proof.
  intros Hnonneg Hlatest Hrequested H0 H1 Hrev. unfold targetRevision.
  destruct (0 <? Revision (Rollback_Spec rollback)) eqn:Hpos.
  - apply Z.ltb_lt in Hpos. repeat split; [lia | congruence | apply Hrequested..].
  - rewrite wrap64_pred by (done || lia).
    unfold int64_range, int64_min, int64_max in *. lia.
Qed.

(** ** What holds of every run *)

Lemma checkLatestVersion_fails {Σ : Payload} (lib : Library Σ)
    (from : DeploymentConfig Σ) (rollback : DeploymentConfigRollback) (err : error) :
  checkLatestVersion lib from rollback = failWith err →
  ∃ reason, err = newInvalidError rollback reason.
Proof.
  intros Hswitch.
  destruct (checkLatestVersion_cases lib from rollback) as [[reason Hfails]|[Hpasses _]].
  - exists reason. rewrite Hfails in Hswitch. by injection Hswitch.
  - rewrite Hpasses in Hswitch. discriminate.
Qed.

Lemma elem_of_callsUpToConfig (c : Call) (namespace : string)
    (rollback : DeploymentConfigRollback) :
  c ∈ callsUpToConfig namespace rollback →
  isStoreRead c = true →
  c = CallGetDeploymentConfig namespace (Rollback_Name rollback).
Proof.
  unfold callsUpToConfig. rewrite !elem_of_cons, elem_of_nil.
  intros [->|[->|[->|[]]]]; [discriminate.. | done].
Qed.

Ltac run_cases Hrun :=
  match type of Hrun with
  | CreateRun _ _ _ _ _ ?t ?o =>
      let made := fresh "made" in
      let ending := fresh "ending" in
      set (made := t) in *; set (ending := o) in *;
      clearbody made ending; destruct Hrun
  end.

(** X10. No store is read for a request that has not passed both
    validations. The deployment config that is read is the one named in the
    request, in the namespace of the context; a replication controller is
    read only past the switch, in that same namespace, under the name
    derived from the config and the target revision. *)
Theorem Create_reads_only_validated_requests {Σ : Payload} (lib : Library Σ) (r : REST Σ)
    (ctx : Context) (obj : Object) (createValidation : Object → option error) (c : Call) :
  c ∈ calls (Create lib r ctx obj createValidation) →
  isStoreRead c = true →
  ∃ namespace rollback,
    reachesStore lib ctx obj createValidation namespace rollback ∧
    (c = CallGetDeploymentConfig namespace (Rollback_Name rollback) ∨
     ∃ from,
       passesSwitch lib r ctx obj createValidation namespace rollback from ∧
       c = CallGetReplicationController namespace (controllerName lib from rollback)).
Proof.
  intros Hin Hread.
  pose proof (Create_run lib r ctx obj createValidation) as Hrun.
  assert (∀ namespace rollback,
            reachesStore lib ctx obj createValidation namespace rollback →
            c ∈ callsUpToConfig namespace rollback →
            ∃ namespace rollback,
              reachesStore lib ctx obj createValidation namespace rollback ∧
              (c = CallGetDeploymentConfig namespace (Rollback_Name rollback) ∨
               ∃ from,
                 passesSwitch lib r ctx obj createValidation namespace rollback from ∧
                 c = CallGetReplicationController namespace (controllerName lib from rollback)))
    as Hconfig.
  { intros namespace rollback Hreach Hc. exists namespace, rollback. split; [done|].
    left. by apply elem_of_callsUpToConfig. }
  assert (∀ namespace rollback from,
            passesSwitch lib r ctx obj createValidation namespace rollback from →
            c ∈ callsUpToController lib namespace rollback from →
            ∃ namespace rollback,
              reachesStore lib ctx obj createValidation namespace rollback ∧
              (c = CallGetDeploymentConfig namespace (Rollback_Name rollback) ∨
               ∃ from,
                 passesSwitch lib r ctx obj createValidation namespace rollback from ∧
                 c = CallGetReplicationController namespace (controllerName lib from rollback)))
    as Hcontroller.
  { intros namespace rollback from Hpass Hc.
    unfold callsUpToController in Hc. apply elem_of_app in Hc as [Hc|Hc].
    - apply (Hconfig namespace rollback); [apply Hpass | done].
    - apply list_elem_of_singleton in Hc as ->.
      exists namespace, rollback. split; [apply Hpass|]. right. by exists from. }
  run_cases Hrun.
  - by apply elem_of_nil in Hin.
  - by apply elem_of_nil in Hin.
  - apply list_elem_of_singleton in Hin as ->. discriminate.
  - rewrite !elem_of_cons, elem_of_nil in Hin. destruct Hin as [->|[->|[]]]; discriminate.
  - by eapply Hconfig.
  - by eapply Hconfig.
  - by eapply Hcontroller.
  - by eapply Hcontroller.
  - by eapply Hcontroller.
  - eapply Hcontroller; [|done]. by eapply proj1.
  - eapply Hcontroller; [|done]. by eapply proj1.
  - eapply Hcontroller; [|done]. by eapply proj1.
Qed.

(** X11. The calls of a run are always an initial part of one fixed
    sequence: the validation of the rollback, the admission function, one
    read of the deployment config, one read of a replication controller.
    Nothing is called twice and no call is made out of this order. *)
Theorem Create_calls_in_order {Σ : Payload} (lib : Library Σ) (r : REST Σ)
    (ctx : Context) (obj : Object) (createValidation : Object → option error) :
  calls (Create lib r ctx obj createValidation) = [] ∨
  ∃ namespace rollback,
    NamespaceFrom ctx = Some namespace ∧
    obj = RollbackObject rollback ∧
    (calls (Create lib r ctx obj createValidation)
       `prefix_of` callsUpToConfig namespace rollback ∨
     ∃ from,
       dn r namespace (Rollback_Name rollback) = inl from ∧
       calls (Create lib r ctx obj createValidation)
       = callsUpToController lib namespace rollback from).
Proof.
  pose proof (Create_run lib r ctx obj createValidation) as Hrun.
  run_cases Hrun.
  - by left.
  - by left.
  - right. exists namespace, rollback. do 2 (split; [done|]). left.
    by exists [CallCreateValidation;
               CallGetDeploymentConfig namespace (Rollback_Name rollback)].
  - right. exists namespace, rollback. do 2 (split; [done|]). left.
    by exists [CallGetDeploymentConfig namespace (Rollback_Name rollback)].
  - right. exists namespace, rollback. destruct H as (? & ? & _). do 2 (split; [done|]). by left.
  - right. exists namespace, rollback. destruct H as (? & ? & _). do 2 (split; [done|]). by left.
  - right. exists namespace, rollback. destruct H as ((? & ? & _) & ? & _).
    do 2 (split; [done|]). right. by exists from.
  - right. exists namespace, rollback. destruct H as ((? & ? & _) & ? & _).
    do 2 (split; [done|]). right. by exists from.
  - right. exists namespace, rollback. destruct H as ((? & ? & _) & ? & _).
    do 2 (split; [done|]). right. by exists from.
  - right. exists namespace, rollback. destruct H as (((? & ? & _) & ? & _) & _).
    do 2 (split; [done|]). right. by exists from.
  - right. exists namespace, rollback. destruct H as (((? & ? & _) & ? & _) & _).
    do 2 (split; [done|]). right. by exists from.
  - right. exists namespace, rollback. destruct H as (((? & ? & _) & ? & _) & _).
    do 2 (split; [done|]). right. by exists from.
Qed.

(** X12. An error that [Create] returns is the admission function's, or the
    generator's, or one that [Create] builds itself, and those are bad
    requests, invalid requests or internal errors only: in particular the
    not-found answer of a store never reaches the caller as such. *)
Theorem Create_failure_kinds {Σ : Payload} (lib : Library Σ) (r : REST Σ)
    (ctx : Context) (obj : Object) (createValidation : Object → option error) (err : error) :
  result (Create lib r ctx obj createValidation) = Fails err →
  createValidation obj = Some err ∨
  (∃ source target spec, GenerateRollback (generator r) source target spec = inr err) ∨
  ReasonForError err = StatusReasonBadRequest ∨
  ReasonForError err = StatusReasonInvalid ∨
  ReasonForError err = StatusReasonInternalError.
Proof.
  intros Hfails.
  pose proof (Create_run lib r ctx obj createValidation) as Hrun.
  run_cases Hrun; try discriminate; injection Hfails as <-.
  - by right; right; left.
  - by right; right; left.
  - by right; right; right; left.
  - by left.
  - by right; right; right; left.
  - match goal with H : checkLatestVersion _ _ _ = _ |- _ =>
      apply checkLatestVersion_fails in H as [reason ->] end.
    by right; right; right; left.
  - by right; right; right; left.
  - by right; right; right; left.
  - by right; right; right; right.
  - by right; right; right; right.
  - right; left. by eexists _, _, _.
Qed.

(** X13. [Create] returns a document only when every step succeeded: the
    request passed both validations, the config was read and got past the
    switch, the replication controller of the target revision was read and
    decoded, both configs converted, and the document is the generator's
    answer on them; the run then made exactly the four calls. *)
Theorem Create_returns_only_generated {Σ : Payload} (lib : Library Σ) (r : REST Σ)
    (ctx : Context) (obj : Object) (createValidation : Object → option error)
    (config : DeploymentConfig Σ) :
  result (Create lib r ctx obj createValidation) = Returns config →
  ∃ namespace rollback from to toInternal fromInternal,
    obtainsTarget lib r ctx obj createValidation namespace rollback from to toInternal ∧
    Convert lib (updatedSource from rollback) = inl fromInternal ∧
    GenerateRollback (generator r) fromInternal toInternal (Rollback_Spec rollback)
    = inl config ∧
    calls (Create lib r ctx obj createValidation)
    = callsUpToController lib namespace rollback from.
Proof.
  intros Hreturns.
  pose proof (Create_run lib r ctx obj createValidation) as Hrun.
  remember (calls (Create lib r ctx obj createValidation)) as made eqn:Hmade.
  rewrite Hreturns in Hrun. clear Hmade Hreturns.
  inversion Hrun; subst.
  by eexists _, _, _, _, _, _.
Qed.


(** X15. A run makes no call at all exactly when the context carries no
    namespace or the object is not a rollback; it then fails with a bad
    request, which for an object of another type reads "not a rollback
    spec: " followed by the rendering of the object. *)
Theorem Create_without_calls {Σ : Payload} (lib : Library Σ) (r : REST Σ)
    (ctx : Context) (obj : Object) (createValidation : Object → option error) :
  (calls (Create lib r ctx obj createValidation) = [] ↔
   NamespaceFrom ctx = None ∨ ∃ goSyntax, obj = OtherObject goSyntax) ∧
  (calls (Create lib r ctx obj createValidation) = [] →
   ∃ reason, result (Create lib r ctx obj createValidation) = Fails (NewBadRequest reason)) ∧
  (∀ namespace goSyntax,
     NamespaceFrom ctx = Some namespace →
     obj = OtherObject goSyntax →
     result (Create lib r ctx obj createValidation)
     = Fails (NewBadRequest ("not a rollback spec: " +:+ goSyntax))).
Proof.
  assert (calls (Create lib r ctx obj createValidation) = [] →
          (NamespaceFrom ctx = None ∨ ∃ goSyntax, obj = OtherObject goSyntax) ∧
          ∃ reason, result (Create lib r ctx obj createValidation)
                    = Fails (NewBadRequest reason)) as Hnone.
  { pose proof (Create_run lib r ctx obj createValidation) as Hrun.
    run_cases Hrun; intros Hnil; try discriminate.
    - split; [by left | by eexists].
    - split; [right; by eexists | by eexists]. }
  split; [split|split].
  - apply Hnone.
  - intros [Hns|[goSyntax ->]]; unfold Create.
    + by rewrite Hns.
    + by destruct (NamespaceFrom ctx).
  - apply Hnone.
  - intros namespace goSyntax Hns ->. unfold Create. by rewrite Hns.
Qed.

(** X16. Every invalid error that [Create] builds is about the request
    itself: its kind is DeploymentConfigRollback, its name is the name of
    the rollback, and its causes are either the errors of the validation or
    a single error on the field [name] whose value is that name. *)
Theorem Create_invalid_errors_name_the_request {Σ : Payload} (lib : Library Σ) (r : REST Σ)
    (ctx : Context) (createValidation : Object → option error)
    (rollback : DeploymentConfigRollback) (err : error) :
  result (Create lib r ctx (RollbackObject rollback) createValidation) = Fails err →
  createValidation (RollbackObject rollback) ≠ Some err →
  (∀ source target spec, GenerateRollback (generator r) source target spec ≠ inr err) →
  ReasonForError err = StatusReasonInvalid →
  ∃ errs,
    err = NewInvalid (apps_Kind "DeploymentConfigRollback") (Rollback_Name rollback) errs ∧
    (errs = ValidateDeploymentConfigRollback lib rollback ∨
     ∃ reason, errs = [field_Invalid "name" (Rollback_Name rollback) reason]).
Proof.
  intros Hfails Hadmission Hgenerator Hreason.
  pose proof (Create_run lib r ctx (RollbackObject rollback) createValidation) as Hrun.
  remember (calls (Create lib r ctx (RollbackObject rollback) createValidation)) as made
    eqn:Hmade.
  rewrite Hfails in Hrun. clear Hmade Hfails.
  inversion Hrun as
    [ | | ? ? ? Hobj | ? ? ? ? Hobj ? Hcv
    | ? ? ? Hreach | ? ? ? ? Hreach ? Hswitch
    | ? ? ? ? Hpass | ? ? ? ? ? Hpass | | |
    | ]; subst; try discriminate.
  - injection Hobj as <-. eexists. split; [done|]. by left.
  - done.
  - destruct Hreach as (_ & [= <-] & _). eexists. split; [done|]. right. by eexists.
  - destruct Hreach as (_ & [= <-] & _).
    apply checkLatestVersion_fails in Hswitch as [reason ->].
    eexists. split; [done|]. right. by eexists.
  - destruct Hpass as ((_ & [= <-] & _) & _). eexists. split; [done|]. right. by eexists.
  - destruct Hpass as ((_ & [= <-] & _) & _). eexists. split; [done|]. right. by eexists.
  - by edestruct Hgenerator.
Qed.

(** ** The further properties at work on the example deployment *)

Ltac by_running :=
  repeat split;
  first [ vm_compute; reflexivity | cbn; lia | discriminate | idtac ].

Lemma Create_reports_validation_errors_witness :
  Create Example.library (Example.rest 3 nilMap [1; 2; 3]) Example.inNamespace
    (RollbackObject (Example.request "frontend" (-1) nilMap)) Example.accept
  = ([CallValidateDeploymentConfigRollback "frontend"],
     Fails (NewInvalid (apps_Kind "DeploymentConfigRollback") "frontend"
              [field_Invalid "spec.revision" "-1" "must be non-negative"])).
Proof.
  apply (Create_reports_validation_errors Example.library (Example.rest 3 nilMap [1; 2; 3])
           Example.inNamespace Example.accept "prod"
           (Example.request "frontend" (-1) nilMap)).
  - reflexivity.
  - discriminate.
Defined.

Lemma Create_returns_admission_error_witness :
  Create Example.library (Example.rest 3 nilMap [1; 2; 3]) Example.inNamespace
    (RollbackObject (Example.request "frontend" 0 nilMap)) Faults.refuse
  = ([CallValidateDeploymentConfigRollback "frontend"; CallCreateValidation],
     Fails (errorString "admission denied")).
Proof.
  apply (Create_returns_admission_error Example.library (Example.rest 3 nilMap [1; 2; 3])
           Example.inNamespace Faults.refuse "prod"
           (Example.request "frontend" 0 nilMap) (errorString "admission denied"));
    reflexivity.
Defined.

Lemma Create_controller_not_read_witness :
  Create Example.library (Example.rest 3 nilMap []) Example.inNamespace
    (RollbackObject (Example.request "frontend" 0 nilMap)) Example.accept
  = ([ CallValidateDeploymentConfigRollback "frontend";
       CallCreateValidation;
       CallGetDeploymentConfig "prod" "frontend";
       CallGetReplicationController "prod" "frontend-2" ],
     Fails (NewInvalid (apps_Kind "DeploymentConfigRollback") "frontend"
              [field_Invalid "name" "frontend"
                 (Example.errorText (NewNotFound "replicationcontrollers" "frontend-2"))])).
Proof.
  apply (Create_controller_not_read Example.library (Example.rest 3 nilMap [])
           Example.inNamespace
           (RollbackObject (Example.request "frontend" 0 nilMap)) Example.accept
           "prod" (Example.request "frontend" 0 nilMap) (Example.configAt 3 nilMap)
           (NewNotFound "replicationcontrollers" "frontend-2")).
  - by_running.
  - reflexivity.
Defined.

Lemma Create_controller_not_decoded_witness :
  Create Faults.undecodable (Example.rest 3 nilMap [2]) Example.inNamespace
    (RollbackObject (Example.request "frontend" 0 nilMap)) Example.accept
  = ([ CallValidateDeploymentConfigRollback "frontend";
       CallCreateValidation;
       CallGetDeploymentConfig "prod" "frontend";
       CallGetReplicationController "prod" "frontend-2" ],
     Fails (NewInvalid (apps_Kind "DeploymentConfigRollback") "frontend"
              [field_Invalid "name" "frontend"
                 "couldn't decode deployment config from deployment: unknown encoding"])).
Proof.
  apply (Create_controller_not_decoded Faults.undecodable (Example.rest 3 nilMap [2])
           Example.inNamespace
           (RollbackObject (Example.request "frontend" 0 nilMap)) Example.accept
           "prod" (Example.request "frontend" 0 nilMap) (Example.configAt 3 nilMap)
           2 (errorString "unknown encoding")).
  - by_running.
  - reflexivity.
  - reflexivity.
Defined.

(** With a conversion that rejects every config the target is not
    converted; with one that rejects the configs that carry annotations, the
    target is converted and the source is not. *)
Lemma Create_conversion_fails_witness :
  result (Create (Faults.unconvertible (λ _, true))
            (Example.rest 3 (mkMap {["a" := "1"]}) [2]) Example.inNamespace
            (RollbackObject (Example.request "frontend" 0 nilMap)) Example.accept)
  = Fails (NewInternalError (errorString "no conversion")) ∧
  result (Create (Faults.unconvertible (λ config, negb (isNil (Annotations config))))
            (Example.rest 3 (mkMap {["a" := "1"]}) [2]) Example.inNamespace
            (RollbackObject (Example.request "frontend" 0 nilMap)) Example.accept)
  = Fails (NewInternalError (errorString "no conversion")).
Proof.
  split.
  - destruct (Create_conversion_fails (Faults.unconvertible (λ _, true))
                (Example.rest 3 (mkMap {["a" := "1"]}) [2]) Example.inNamespace
                (RollbackObject (Example.request "frontend" 0 nilMap)) Example.accept
                "prod" (Example.request "frontend" 0 nilMap)
                (Example.configAt 3 (mkMap {["a" := "1"]}))
                2 (Example.configAt 2 nilMap)) as [Htarget _].
    + by_running.
    + reflexivity.
    + reflexivity.
    + rewrite (Htarget (errorString "no conversion")); reflexivity.
  - destruct (Create_conversion_fails
                (Faults.unconvertible (λ config, negb (isNil (Annotations config))))
                (Example.rest 3 (mkMap {["a" := "1"]}) [2]) Example.inNamespace
                (RollbackObject (Example.request "frontend" 0 nilMap)) Example.accept
                "prod" (Example.request "frontend" 0 nilMap)
                (Example.configAt 3 (mkMap {["a" := "1"]}))
                2 (Example.configAt 2 nilMap)) as [_ Hsource].
    + by_running.
    + reflexivity.
    + reflexivity.
    + rewrite (Hsource (Example.configAt 2 nilMap) (errorString "no conversion"));
        [reflexivity | reflexivity | vm_compute; reflexivity].
Defined.

Lemma Create_returns_generator_error_witness :
  Create Example.library (Faults.restWithoutGenerator 3 [2]) Example.inNamespace
    (RollbackObject (Example.request "frontend" 0 nilMap)) Example.accept
  = ([ CallValidateDeploymentConfigRollback "frontend";
       CallCreateValidation;
       CallGetDeploymentConfig "prod" "frontend";
       CallGetReplicationController "prod" "frontend-2" ],
     Fails (errorString "generator unavailable")).
Proof.
  apply (Create_returns_generator_error Example.library (Faults.restWithoutGenerator 3 [2])
           Example.inNamespace
           (RollbackObject (Example.request "frontend" 0 nilMap)) Example.accept
           "prod" (Example.request "frontend" 0 nilMap)
           (Example.configAt 3 nilMap) (Example.configAt 2 nilMap) (Example.configAt 2 nilMap)
           (Example.configAt 3 nilMap)).
  - split; [by_running|]. exists 2. by_running.
  - reflexivity.
  - reflexivity.
Defined.

Lemma updateAnnotations_without_updates_witness :
  updateAnnotations nilMap (mkMap ∅) = Some nilMap ∧
  updateAnnotations (mkMap {["a" := "1"]}) nilMap = Some (mkMap {["a" := "1"]}).
Proof.
  split.
  - apply (updateAnnotations_without_updates nilMap (mkMap ∅)). reflexivity.
  - apply (updateAnnotations_without_updates (mkMap {["a" := "1"]}) nilMap). reflexivity.
Defined.

Lemma updateAnnotations_idempotent_witness :
  updateAnnotations (mkMap {["a" := "2"; "b" := "3"]}) (mkMap {["a" := "2"; "b" := "3"]})
  = Some (mkMap {["a" := "2"; "b" := "3"]}).
Proof.
  apply (updateAnnotations_idempotent
           (mkMap {["a" := "1"]}) (mkMap {["a" := "2"; "b" := "3"]})
           (mkMap {["a" := "2"; "b" := "3"]})).
  vm_compute. reflexivity.
Defined.

Lemma targetRevision_bounds_witness :
  1 ≤ targetRevision (Example.configAt 5 nilMap) (Example.request "frontend" 0 nilMap) ∧
  targetRevision (Example.configAt 5 nilMap) (Example.request "frontend" 0 nilMap) ≠ 5 ∧
  int64_range
    (targetRevision (Example.configAt 5 nilMap) (Example.request "frontend" 0 nilMap)).
Proof.
  apply (targetRevision_bounds (Example.configAt 5 nilMap)
           (Example.request "frontend" 0 nilMap));
    first [ cbn; lia | unfold int64_range, int64_min, int64_max; cbn; lia ].
Defined.

Lemma Create_reads_only_validated_requests_witness :
  ∃ namespace rollback,
    reachesStore Example.library Example.inNamespace
      (RollbackObject (Example.request "frontend" 0 nilMap)) Example.accept
      namespace rollback ∧
    (CallGetReplicationController "prod" "frontend-4"
     = CallGetDeploymentConfig namespace (Rollback_Name rollback) ∨
     ∃ from,
       passesSwitch Example.library (Example.rest 5 nilMap [4]) Example.inNamespace
         (RollbackObject (Example.request "frontend" 0 nilMap)) Example.accept
         namespace rollback from ∧
       CallGetReplicationController "prod" "frontend-4"
       = CallGetReplicationController namespace
           (controllerName Example.library from rollback)).
Proof.
  apply (Create_reads_only_validated_requests Example.library (Example.rest 5 nilMap [4])
           Example.inNamespace
           (RollbackObject (Example.request "frontend" 0 nilMap)) Example.accept
           (CallGetReplicationController "prod" "frontend-4")).
  - vm_compute. do 3 apply list_elem_of_further. apply list_elem_of_here.
  - reflexivity.
Defined.

Lemma Create_failure_kinds_witness :
  ReasonForError
    (newInvalidError (Example.request "frontend" 0 nilMap)
       "cannot rollback an undeployed config")
  = StatusReasonInvalid ∧
  (Example.accept (RollbackObject (Example.request "frontend" 0 nilMap))
   = Some (newInvalidError (Example.request "frontend" 0 nilMap)
             "cannot rollback an undeployed config") ∨
   (∃ source target spec,
      GenerateRollback (generator (Example.rest 0 nilMap [])) source target spec
      = inr (newInvalidError (Example.request "frontend" 0 nilMap)
               "cannot rollback an undeployed config")) ∨
   ReasonForError (newInvalidError (Example.request "frontend" 0 nilMap)
                     "cannot rollback an undeployed config") = StatusReasonBadRequest ∨
   ReasonForError (newInvalidError (Example.request "frontend" 0 nilMap)
                     "cannot rollback an undeployed config") = StatusReasonInvalid ∨
   ReasonForError (newInvalidError (Example.request "frontend" 0 nilMap)
                     "cannot rollback an undeployed config") = StatusReasonInternalError).
Proof.
  split; [reflexivity|].
  apply (Create_failure_kinds Example.library (Example.rest 0 nilMap [])
           Example.inNamespace
           (RollbackObject (Example.request "frontend" 0 nilMap)) Example.accept).
  vm_compute. reflexivity.
Defined.

Lemma Create_returns_only_generated_witness :
  ∃ namespace rollback from to toInternal fromInternal,
    obtainsTarget Example.library (Example.rest 5 nilMap [4]) Example.inNamespace
      (RollbackObject (Example.request "frontend" 0 nilMap)) Example.accept
      namespace rollback from to toInternal ∧
    Convert Example.library (updatedSource from rollback) = inl fromInternal ∧
    GenerateRollback (generator (Example.rest 5 nilMap [4])) fromInternal toInternal
      (Rollback_Spec rollback)
    = inl (overwriteStructure (Example.configAt 5 nilMap) (Example.configAt 4 nilMap)
             (selectionMask (Rollback_Spec (Example.request "frontend" 0 nilMap)))) ∧
    calls (Create Example.library (Example.rest 5 nilMap [4]) Example.inNamespace
             (RollbackObject (Example.request "frontend" 0 nilMap)) Example.accept)
    = callsUpToController Example.library namespace rollback from.
Proof.
  apply (Create_returns_only_generated Example.library (Example.rest 5 nilMap [4])
           Example.inNamespace
           (RollbackObject (Example.request "frontend" 0 nilMap)) Example.accept).
  vm_compute. reflexivity.
Defined.

Lemma Create_invalid_errors_name_the_request_witness :
  ∃ errs,
    newInvalidError (Example.request "frontend" 0 nilMap) "cannot rollback an undeployed config"
    = NewInvalid (apps_Kind "DeploymentConfigRollback") "frontend" errs ∧
    (errs = Example.validate (Example.request "frontend" 0 nilMap) ∨
     ∃ reason, errs = [field_Invalid "name" "frontend" reason]).
Proof.
  apply (Create_invalid_errors_name_the_request Example.library (Example.rest 0 nilMap [])
           Example.inNamespace Example.accept (Example.request "frontend" 0 nilMap)).
  - vm_compute. reflexivity.
  - discriminate.
  - discriminate.
  - reflexivity.
Defined.
